(** * VideoConferenceMeeting: the home page and the room page

    A shallow embedding of the two client components of the repository,
    [src/app/page.tsx] (component [Home]) and
    [src/app/room/[roomid]/page.tsx] (component [Room]), and the properties
    of their event handlers.

    Conventions of the embedding.
    - A JavaScript string is the list of its UTF-16 code units, so that
      [length] is the [.length] of the source.
    - A value that the source types as [string | null | undefined] is a
      [jsval]; [truthy] is JavaScript's ToBoolean on it.
    - React state ([useState]) and refs ([useRef]) are fields of a state
      record; an event handler is a function on that record.  Calls into the
      browser, the router or the conferencing SDK are recorded in a log.
    - A closure created during a render is represented by the values it
      captured from that render. *)

From Stdlib Require Import ZArith NArith Ascii String.
From stdpp Require Import base tactics option list pretty.

Local Open Scope Z_scope.

(** ** JavaScript values *)

Definition jsstring := list N.

Definition lit (s : string) : jsstring := N_of_ascii <$> list_ascii_of_string s.
Arguments lit : simpl never.

Inductive jsval :=
| JUndefined
| JNull
| JString (s : jsstring).

#[global] Instance jsval_eq_dec : EqDecision jsval.
Proof. solve_decision. Defined.

(** ToBoolean: [undefined], [null] and the empty string are falsy. *)
Definition truthy (v : jsval) : bool :=
  match v with
  | JString (_ :: _) => true
  | _ => false
  end.

(** [a || b] *)
Definition js_or (a b : jsval) : jsval := if truthy a then a else b.

(** The string held by a value known to be a string. *)
Definition str_of (v : jsval) : jsstring :=
  match v with
  | JString s => s
  | _ => []
  end.

(** ToString on the values of [jsval]. *)
Definition ToString (v : jsval) : jsstring :=
  match v with
  | JUndefined => lit "undefined"
  | JNull => lit "null"
  | JString s => s
  end.

(** Number.prototype.toString of an integer (as [Date.now()] returns). *)
Definition number_to_string (n : Z) : jsstring := lit (pretty n).

(** *** [parseInt] with no radix argument

    Leading white space is skipped, a sign is read, a [0x]/[0X] prefix
    selects radix 16, and the longest prefix of digits is the value; [None]
    stands for NaN.  The value is the exact integer (the platform rounds it
    to a double above 2^53, which no property below depends on). *)

Definition is_white_space (c : N) : bool :=
  (existsb (N.eqb c)
     [9; 10; 11; 12; 13; 32; 160; 5760; 8232; 8233; 8239; 8287; 12288; 65279]%N
   || ((8192 <=? c) && (c <=? 8202))%N)%bool.

Fixpoint skip_white_space (s : jsstring) : jsstring :=
  match s with
  | c :: r => if is_white_space c then skip_white_space r else s
  | [] => []
  end.

Definition digit_value (c : N) : option Z :=
  if ((48 <=? c) && (c <=? 57))%N then Some (Z.of_N c - 48)
  else if ((97 <=? c) && (c <=? 122))%N then Some (Z.of_N c - 87)
  else if ((65 <=? c) && (c <=? 90))%N then Some (Z.of_N c - 55)
  else None.

Fixpoint parse_digits (R : Z) (acc : option Z) (s : jsstring) : option Z :=
  match s with
  | c :: r =>
      match digit_value c with
      | Some d =>
          if d <? R then parse_digits R (Some (default 0 acc * R + d)) r
          else acc
      | None => acc
      end
  | [] => acc
  end.

Definition parseInt (v : jsval) : option Z :=
  let s := skip_white_space (ToString v) in
  let '(sign, s) :=
    match s with
    | 45%N :: r => (-1, r)
    | 43%N :: r => (1, r)
    | _ => (1, s)
    end in
  let '(R, s) :=
    match s with
    | 48%N :: x :: r =>
        if ((x =? 120) || (x =? 88))%N then (16, r) else (10, s)
    | _ => (10, s)
    end in
  Z.mul sign <$> parse_digits R None s.

(** ** The home page, [src/app/page.tsx] *)

Module Home.

(** [fullName] is the name held by the hook [useUser]; [roomId] is the
    component's own state, [isPending] the flag of [useTransition];
    [pushed] and [prefetched] record the calls of [router.push] and
    [router.prefetch], oldest first. *)
Record State := mkState {
  fullName : jsval;
  roomId : jsstring;
  isPending : bool;
  pushed : list jsstring;
  prefetched : list jsstring
}.

(** Modelled from the spec: the hook [useUser] ([@/hooks/useUser]), whose
    source is not among the files. The spec describes the display name as
    free text that only the home page's minimum length validates, so the hook
    is a cell holding the name, and [setFullName] stores its argument. *)
Definition setFullName (v : jsval) (s : State) : State :=
  mkState v (roomId s) (isPending s) (pushed s) (prefetched s).

Definition setRoomId (r : jsstring) (s : State) : State :=
  mkState (fullName s) r (isPending s) (pushed s) (prefetched s).

Definition set_isPending (b : bool) (s : State) : State :=
  mkState (fullName s) (roomId s) b (pushed s) (prefetched s).

Definition router_push (route : jsstring) (s : State) : State :=
  mkState (fullName s) (roomId s) (isPending s) (pushed s ++ [route])
    (prefetched s).

Definition router_prefetch (route : jsstring) (s : State) : State :=
  mkState (fullName s) (roomId s) (isPending s) (pushed s)
    (prefetched s ++ [route]).

(** [startTransition(cb)] runs [cb] at once and raises [isPending] until
    the transition has finished. *)
Definition startTransition (cb : State -> State) (s : State) : State :=
  cb (set_isPending true s).

(** [const isRoomIdValid = useMemo(() => roomId.length > 0, [roomId])] *)
Definition isRoomIdValid (s : State) : bool := (0 <? length (roomId s))%nat.

(** [handleConnect]: the guard [if (roomId)] is ToBoolean of a string. *)
Definition handleConnect (s : State) : State :=
  if truthy (JString (roomId s))
  then startTransition (router_push (lit "/room/" ++ roomId s)) s
  else s.

(** [handleCreateRoom]; [newRoomId] is what the call [uuid()] returned. *)
Definition handleCreateRoom (newRoomId : jsstring) (s : State) : State :=
  startTransition (router_push (lit "/room/" ++ newRoomId)) s.

(** The interactive elements of the rendered page. *)
Inductive Element :=
| NameInput
| RoomIdInput (value : jsstring)
| ConnectButton (disabled : bool) (label : jsstring)
| CreateRoomButton (disabled : bool) (label : jsstring).

(** The condition [fullName && fullName.length >= 3] guarding the room
    section: a falsy name short-circuits, otherwise the length decides. *)
Definition showRoomControls (name : jsval) : bool :=
  if truthy name then (3 <=? length (str_of name))%nat else false.

Definition roomControls (s : State) : list Element :=
  [ RoomIdInput (roomId s);
    ConnectButton (negb (isRoomIdValid s) || isPending s)
      (if isPending s then lit "Connecting..." else lit "Connect");
    CreateRoomButton (isPending s)
      (if isPending s then lit "Creating Room..." else lit "Or Create Room") ].

Definition render (s : State) : list Element :=
  NameInput :: (if showRoomControls (fullName s) then roomControls s else []).

Definition is_RoomIdInput (e : Element) : bool :=
  match e with RoomIdInput _ => true | _ => false end.
Definition is_ConnectButton (e : Element) : bool :=
  match e with ConnectButton _ _ => true | _ => false end.
Definition is_CreateRoomButton (e : Element) : bool :=
  match e with CreateRoomButton _ _ => true | _ => false end.

(** Whether the rendered page has an element of a kind. *)
Definition rendered (f : Element -> bool) (s : State) : bool :=
  existsb f (render s).

(** Whether a button of the rendered page can be pressed. *)
Definition connect_enabled (s : State) : bool :=
  existsb (fun e => match e with ConnectButton false _ => true | _ => false end)
    (render s).
Definition create_enabled (s : State) : bool :=
  existsb (fun e => match e with CreateRoomButton false _ => true | _ => false end)
    (render s).

Inductive Event :=
| Mount
| ChangeName (value : jsstring)
| ChangeRoomId (value : jsstring)
| ClickConnect
| ClickCreateRoom (uuid : jsstring)
| TransitionDone.

Definition initial (name : jsval) : State := mkState name [] false [] [].

(** One event of the page; [None] when the page offers no such event
    (the element is not rendered, or the button is disabled). *)
Definition step (e : Event) (s : State) : option State :=
  match e with
  | Mount => Some (router_prefetch (lit "/room/[roomId]") (setFullName (JString []) s))
  | ChangeName v => Some (setFullName (JString v) s)
  | ChangeRoomId v =>
      if existsb is_RoomIdInput (render s) then Some (setRoomId v s) else None
  | ClickConnect =>
      if connect_enabled s then Some (handleConnect s) else None
  | ClickCreateRoom u =>
      if create_enabled s then Some (handleCreateRoom u s) else None
  | TransitionDone => Some (set_isPending false s)
  end.

End Home.

(** ** The room page, [src/app/room/[roomid]/page.tsx] *)

Module Room.

(** How the hooks of the component are read.
    - [useState]: a cell of the state record. A setter called with a value
      writes it; called with an updater it writes the updater's result on
      the current value.
    - [useRef]: a cell written by assignment to [.current].
    - [useCallback(f, deps)]: the function of the render in which a
      dependency last changed, closing over the variables of that render.
      [cleanupMedia] (no dependency) and [handleLeaveRoom] are the same in
      every render. [initializeMeeting] has [retryCount] among its
      dependencies ([roomId] and [fullName] do not change), so there is one
      [initializeMeeting] for every value that [retryCount] takes on screen:
      in its body, and in the callbacks it hands to [joinRoom], the name
      [retryCount] is that value and the name [initializeMeeting] is that
      function.
    - [useEffect(g, deps)]: [g] runs after the first render, and after every
      render in which a dependency changed, preceded then by the cleanup
      that the previous run of [g] returned; the last cleanup runs when the
      page is unmounted.
    - Events are handled one at a time, and the render caused by a handler
      is committed before the next event. *)

(** *** Constants *)

Definition RETRY_DELAY : Z := 5000.
Definition JOIN_TIMEOUT : Z := 8000.
Definition MEETING_DURATION : Z := 18000.
Definition LEAVE_REDIRECT_DELAY : Z := 500.
Definition MAX_RETRIES : Z := 3.

(** *** What the component is given

    [searchRoomID] is [searchParams.get('roomID')] ([null] when the query
    has no such parameter), [pathRoomid] is [paramsValue?.roomid]
    ([undefined] when there is none), [fullName] is the name returned by
    [useUser()], the two [ZEGO_] fields are the entries of [process.env]
    and the last two are read from [window.location]. They do not change
    while the page is shown. *)
Record Props := mkProps {
  searchRoomID : jsval;
  pathRoomid : jsval;
  fullName : jsval;
  ZEGO_APP_ID : jsval;
  ZEGO_SERVER_SECRET : jsval;
  location_protocol : jsstring;
  location_host : jsstring
}.

(** [const roomId = searchParams.get('roomID') || paramsValue?.roomid] *)
Definition roomId (p : Props) : jsval := js_or (searchRoomID p) (pathRoomid p).

(** *** The SDK and the browser, as the component sees them *)

(** The arguments a kit token was generated from; the application
    identifier is a number, [None] when it is NaN. *)
Record KitToken := mkKitToken {
  tk_appID : option Z;
  tk_serverSecret : jsval;
  tk_roomID : jsstring;
  tk_userID : jsstring;
  tk_userName : jsstring;
  tk_duration : Z
}.

(** An instance returned by [ZegoUIKitPrebuilt.create]: every call that
    returns yields a new instance, numbered in order of creation. *)
Record Widget := mkWidget {
  wid : nat;
  kitToken : KitToken
}.

(** The part of the configuration given to [joinRoom] that varies: the
    shared link, and the render whose variables the callbacks close over.
    [roomId], [fullName], [cleanupMedia] and [handleLeaveRoom] are the
    same in every render, so the render is identified by its
    [retryCount]; the [initializeMeeting] that the callback re-invokes is
    the one of that render too. *)
Record JoinConfig := mkJoinConfig {
  sharedLink_url : jsstring;
  closure_retryCount : Z
}.

(** What a pending [setTimeout] callback does. *)
Inductive TimerAction :=
| RetryInit (closure_rc : Z)   (* () => { cleanupMedia(); initializeMeeting(); } *)
| Redirect.                    (* () => { window.location.href = '/'; } *)

Record Timer := mkTimer {
  due : Z;
  action : TimerAction
}.

(** The media of the document: the tracks of
    [navigator.mediaDevices.getTracks()] when the browser has such a
    method, and the [srcObject] stream (a list of tracks) of every video
    and audio element, in document order. *)
Record Dom := mkDom {
  mediaDevices_getTracks : option (list nat);
  videos : list (option (list nat));
  audios : list (option (list nat))
}.

(** Calls that leave the component, newest first in the log.
    [InitEnter held] is a ghost entry written at the entry of
    [initializeMeeting]: [held] tells whether [zegoRef.current] was set. *)
Inductive Effect :=
| TrackStop (track : nat)
| CallDestroy (w : nat)
| CallGenerateKitToken (t : KitToken)
| CallCreate (t : KitToken)
| CallJoinRoom (w : nat) (cfg : JoinConfig)
| CallSetTimeout (delay : Z) (a : TimerAction)
| ConsoleError (tag : jsstring)
| LocationAssign (href : jsstring)
| InitEnter (held : bool).

(** What one run of [initializeMeeting] gets from outside: the values of
    [uuid()] and [Date.now()], and how far the SDK goes before it throws. *)
Inductive SdkOutcome :=
| TokenThrows
| CreateThrows
| JoinThrows
| JoinReturns.

Record InitEnv := mkInitEnv {
  uuid : jsstring;
  date_now : Z;
  sdk : SdkOutcome
}.

(** *** The state of a mounted page *)

Inductive Phase := Fresh | Mounted | Unmounted | Unloaded.

#[global] Instance Phase_eq_dec : EqDecision Phase.
Proof. solve_decision. Defined.

(** [zegoRef] is [zegoRef.current]; [connectionError] and [retryCount]
    are the two [useState] cells; [timers] are the pending timeouts and
    [now] the clock in milliseconds; [callbacks] maps every widget whose
    [joinRoom] returned to the configuration it was given. *)
Record State := mkState {
  phase : Phase;
  zegoRef : option Widget;
  connectionError : jsval;
  retryCount : Z;
  timers : list Timer;
  now : Z;
  nextWid : nat;
  callbacks : list (nat * JoinConfig);
  dom : Dom;
  log : list Effect
}.

Definition initial (d : Dom) : State :=
  mkState Fresh None JNull 0 [] 0 0%nat [] d [].

Definition set_phase (v : Phase) (s : State) : State :=
  mkState v (zegoRef s) (connectionError s) (retryCount s) (timers s)
    (now s) (nextWid s) (callbacks s) (dom s) (log s).
Definition set_zegoRef (v : option Widget) (s : State) : State :=
  mkState (phase s) v (connectionError s) (retryCount s) (timers s)
    (now s) (nextWid s) (callbacks s) (dom s) (log s).
Definition set_connectionError (v : jsval) (s : State) : State :=
  mkState (phase s) (zegoRef s) v (retryCount s) (timers s)
    (now s) (nextWid s) (callbacks s) (dom s) (log s).
Definition set_retryCount (v : Z) (s : State) : State :=
  mkState (phase s) (zegoRef s) (connectionError s) v (timers s)
    (now s) (nextWid s) (callbacks s) (dom s) (log s).
Definition set_timers (v : list Timer) (s : State) : State :=
  mkState (phase s) (zegoRef s) (connectionError s) (retryCount s) v
    (now s) (nextWid s) (callbacks s) (dom s) (log s).
Definition set_now (v : Z) (s : State) : State :=
  mkState (phase s) (zegoRef s) (connectionError s) (retryCount s) (timers s)
    v (nextWid s) (callbacks s) (dom s) (log s).
Definition set_nextWid (v : nat) (s : State) : State :=
  mkState (phase s) (zegoRef s) (connectionError s) (retryCount s) (timers s)
    (now s) v (callbacks s) (dom s) (log s).
Definition set_callbacks (v : list (nat * JoinConfig)) (s : State) : State :=
  mkState (phase s) (zegoRef s) (connectionError s) (retryCount s) (timers s)
    (now s) (nextWid s) v (dom s) (log s).
Definition set_dom (v : Dom) (s : State) : State :=
  mkState (phase s) (zegoRef s) (connectionError s) (retryCount s) (timers s)
    (now s) (nextWid s) (callbacks s) v (log s).
Definition emit (e : Effect) (s : State) : State :=
  mkState (phase s) (zegoRef s) (connectionError s) (retryCount s) (timers s)
    (now s) (nextWid s) (callbacks s) (dom s) (e :: log s).

Definition is_mounted (s : State) : bool :=
  match phase s with Mounted => true | _ => false end.

(** The setters of [useState], with a value and with an updater. Once the
    page is unmounted nothing renders or reads the two cells any more. *)
Definition setConnectionError (v : jsval) (s : State) : State :=
  set_connectionError v s.

Definition setRetryCount (f : Z -> Z) (s : State) : State :=
  set_retryCount (f (retryCount s)) s.

Definition setTimeout (a : TimerAction) (delay : Z) (s : State) : State :=
  emit (CallSetTimeout delay a)
    (set_timers (timers s ++ [mkTimer (now s + delay) a]) s).

Definition console_error (tag : jsstring) (s : State) : State :=
  emit (ConsoleError tag) s.

(** [myCallContainerRef.current]: the container is part of the main view
    only, and React clears the ref when the page is unmounted. *)
Definition container_attached (p : Props) (s : State) : bool :=
  is_mounted s && truthy (roomId p).

(** Whether [zegoRef.current] is set. *)
Definition holds_widget (s : State) : bool :=
  match zegoRef s with Some _ => true | None => false end.

(** *** [cleanupMedia] *)

(** [tracks.forEach(track => track.stop())] *)
Definition stop_all (tracks : list nat) (s : State) : State :=
  foldl (fun s t => emit (TrackStop t) s) s tracks.

Definition cleanupMedia (s : State) : State :=
  let s1 :=
    match mediaDevices_getTracks (dom s) with
    | Some tracks => stop_all tracks s
    | None => s
    end in
  let tracks := videos (dom s1) ++ audios (dom s1) in
  let s2 :=
    foldl (fun s track =>
             match track with
             | Some mediaStream => stop_all mediaStream s
             | None => s
             end) s1 tracks in
  match zegoRef s2 with
  | Some w => set_zegoRef None (emit (CallDestroy (wid w)) s2)
  | None => s2
  end.

(** *** Actions that may throw

    An action runs on the state and either completes or throws; what it
    did to the state before throwing stays done. *)

Inductive Completion (A : Type) :=
| Normal (a : A)
| Thrown (error : jsstring).
Arguments Normal {A} a.
Arguments Thrown {A} error.

Definition Act (A : Type) : Type := State -> Completion A * State.

#[global] Instance Act_ret : MRet Act := fun A a s => (Normal a, s).

#[global] Instance Act_bind : MBind Act := fun A B f m s =>
  match m s with
  | (Normal a, s') => f a s'
  | (Thrown e, s') => (Thrown e, s')
  end.

Definition get : Act State := fun s => (Normal s, s).
Definition modify (f : State -> State) : Act unit := fun s => (Normal tt, f s).
Definition throw {A} (error : jsstring) : Act A := fun s => (Thrown error, s).

(** [try { body } catch (error) { handler }] *)
Definition try_catch (body : Act unit) (handler : jsstring -> Act unit) : Act unit :=
  fun s =>
    match body s with
    | (Normal a, s') => (Normal a, s')
    | (Thrown e, s') => handler e s'
    end.

(** The three SDK calls of [initializeMeeting]. Each is logged when it is
    made, and throws or returns as [sdk x] says. *)
Definition generateKitTokenForTest (x : InitEnv) (t : KitToken) : Act KitToken :=
  modify (emit (CallGenerateKitToken t));;
  match sdk x with
  | TokenThrows => throw (lit "generateKitTokenForTest")
  | _ => mret t
  end.

Definition create (x : InitEnv) (t : KitToken) : Act Widget :=
  modify (emit (CallCreate t));;
  match sdk x with
  | CreateThrows => throw (lit "create")
  | _ =>
      s ← get;
      modify (set_nextWid (S (nextWid s)));;
      mret (mkWidget (nextWid s) t)
  end.

Definition joinRoom (x : InitEnv) (w : Widget) (cfg : JoinConfig) : Act unit :=
  modify (emit (CallJoinRoom (wid w) cfg));;
  match sdk x with
  | JoinThrows => throw (lit "joinRoom")
  | _ => s ← get; modify (set_callbacks ((wid w, cfg) :: callbacks s))
  end.

(** *** [initializeMeeting]

    [rc] is the [retryCount] of the render that created this instance of
    the callback (it is in the dependency list of [useCallback]). *)

Definition initializeMeeting_try (p : Props) (rc : Z) (x : InitEnv) : Act unit :=
  let appID := parseInt (ZEGO_APP_ID p) in
  let serverSecret := ZEGO_SERVER_SECRET p in
  appID ← match appID with
          | None => throw (lit "Invalid App ID")
          | Some n => mret n
          end;
  (if negb (truthy serverSecret)
   then throw (lit "Server Secret is missing") else mret tt);;
  kitToken ← generateKitTokenForTest x
    (mkKitToken (Some appID) serverSecret (str_of (roomId p)) (uuid x)
       (str_of (js_or (fullName p)
                  (JString (lit "user" ++ number_to_string (date_now x)))))
       MEETING_DURATION);
  w ← create x kitToken;
  modify (set_zegoRef (Some w));;
  s ← get;
  if container_attached p s
  then joinRoom x w
         (mkJoinConfig
            (location_protocol p ++ lit "//" ++ location_host p
               ++ lit "/room/" ++ str_of (roomId p))
            rc)
  else mret tt.

Definition initializeMeeting (p : Props) (rc : Z) (x : InitEnv) : Act unit :=
  s0 ← get;
  modify (emit (InitEnter (holds_widget s0)));;
  if negb (truthy (roomId p)) then
    modify (setConnectionError (JString (lit "No room ID provided")))
  else
    try_catch (initializeMeeting_try p rc x)
      (fun error =>
         modify (console_error (lit "Zego initialization error:"));;
         modify (setConnectionError
                   (JString (lit "Failed to initialize meeting. Please try again.")))).

(** A call [initializeMeeting()] whose result nobody looks at. *)
Definition call_initializeMeeting (p : Props) (rc : Z) (x : InitEnv)
    (s : State) : State :=
  (initializeMeeting p rc x s).2.

(** *** The callbacks given to [joinRoom] *)

(** [() => { cleanupMedia(); initializeMeeting(); }] *)
Definition retry_callback (p : Props) (rc : Z) (x : InitEnv) (s : State) : State :=
  call_initializeMeeting p rc x (cleanupMedia s).

Definition onNetworkStatusError (rc : Z) (s : State) : State :=
  let s := console_error (lit "Network error:") s in
  let s := setConnectionError
             (JString (lit "Network connection error. Attempting to reconnect...")) s in
  if rc <? MAX_RETRIES then
    let s := setRetryCount (fun prevCount => prevCount + 1) s in
    setTimeout (RetryInit rc) RETRY_DELAY s
  else
    setConnectionError
      (JString (lit "Maximum retry attempts reached. Please check your network.")) s.

Definition onConnectionStateChanged (state : jsstring) (s : State) : State :=
  if bool_decide (state = lit "CONNECTED") then
    let s := setConnectionError JNull s in
    setRetryCount (fun _ => 0) s
  else s.

Definition handleLeaveRoom (s : State) : State :=
  setTimeout Redirect LEAVE_REDIRECT_DELAY (cleanupMedia s).

Definition onDeviceError (message : jsstring) (s : State) : State :=
  let s := console_error (lit "Device error:") s in
  setConnectionError (JString (lit "Device error: " ++ message)) s.

(** [onClick] of the Retry button; [rc] is the [retryCount] of the render
    on screen. *)
Definition onClickRetry (p : Props) (rc : Z) (x : InitEnv) (s : State) : State :=
  let s := setConnectionError JNull s in
  let s := cleanupMedia s in
  call_initializeMeeting p rc x s.

(** *** Rendering *)

Inductive View :=
| ErrorView (message : jsstring)
| MeetingView (banner : option jsstring).

Definition render (p : Props) (s : State) : View :=
  if negb (truthy (roomId p)) then ErrorView (lit "No room ID provided")
  else MeetingView
         (if truthy (connectionError s)
          then Some (str_of (connectionError s)) else None).

(** The effect [useEffect(() => { initializeMeeting(); return () =>
    cleanupMedia(); }, [initializeMeeting, cleanupMedia])]. Of its
    dependencies only [initializeMeeting] ever changes, and it changes
    exactly when [retryCount] does: after a handler that changed
    [retryCount] the page is rendered again, the cleanup of the previous
    effect runs and the effect runs with the new callback. *)
Definition rerender (p : Props) (prev_rc : Z) (x : InitEnv) (s : State) : State :=
  if is_mounted s && negb (retryCount s =? prev_rc)
  then call_initializeMeeting p (retryCount s) x (cleanupMedia s)
  else s.

(** *** Events

    [x] is what the run of [initializeMeeting] caused by the event, if
    there is one, gets from outside. An SDK callback is addressed to the
    widget whose [joinRoom] received it. *)
Inductive Event :=
| EMount (x : InitEnv)
| EUnmount
| EAdvance (ms : Z)
| EDom (d : Dom)
| ENetworkStatusError (w : nat) (x : InitEnv)
| EConnectionStateChanged (w : nat) (state : jsstring) (x : InitEnv)
| ELeaveRoom (w : nat)
| EDeviceError (w : nat) (message : jsstring)
| ETimer (i : nat) (x : InitEnv)
| EClickRetry (x : InitEnv).

Fixpoint find_config (w : nat) (l : list (nat * JoinConfig)) : option JoinConfig :=
  match l with
  | [] => None
  | (w', cfg) :: r => if (w =? w')%nat then Some cfg else find_config w r
  end.

Definition fire (p : Props) (t : Timer) (x : InitEnv) (s : State) : State :=
  match action t with
  | RetryInit rc => retry_callback p rc x s
  | Redirect => set_phase Unloaded (emit (LocationAssign (lit "/")) s)
  end.

(** An event of a page that was mounted and not left; [None] when it
    cannot happen in [s]: a page is mounted once, a callback needs a
    widget that joined, a timer fires when it is due, and the Retry button
    is there only while the banner is shown. *)
Definition dispatch (p : Props) (e : Event) (s : State) : option State :=
  match e with
  | EMount _ => None
  | EUnmount =>
      if is_mounted s then Some (set_phase Unmounted (cleanupMedia s)) else None
  | EAdvance ms =>
      if 0 <=? ms then Some (set_now (now s + ms) s) else None
  | EDom d => Some (set_dom d s)
  | ENetworkStatusError w x =>
      cfg ← find_config w (callbacks s);
      Some (rerender p (retryCount s) x
              (onNetworkStatusError (closure_retryCount cfg) s))
  | EConnectionStateChanged w state x =>
      cfg ← find_config w (callbacks s);
      Some (rerender p (retryCount s) x (onConnectionStateChanged state s))
  | ELeaveRoom w =>
      cfg ← find_config w (callbacks s);
      Some (handleLeaveRoom s)
  | EDeviceError w message =>
      cfg ← find_config w (callbacks s);
      Some (onDeviceError message s)
  | ETimer i x =>
      t ← timers s !! i;
      if due t <=? now s
      then Some (fire p t x (set_timers (delete i (timers s)) s))
      else None
  | EClickRetry x =>
      match is_mounted s, render p s with
      | true, MeetingView (Some _) => Some (onClickRetry p (retryCount s) x s)
      | _, _ => None
      end
  end.

(** One event. Mounting runs the effect for the first time; nothing
    happens to a page that was left by the redirect. *)
Definition step (p : Props) (e : Event) (s : State) : option State :=
  match phase s with
  | Unloaded => None
  | Fresh =>
      match e with
      | EMount x => Some (call_initializeMeeting p (retryCount s) x (set_phase Mounted s))
      | _ => None
      end
  | _ => dispatch p e s
  end.

Fixpoint run (p : Props) (events : list Event) (s : State) : option State :=
  match events with
  | [] => Some s
  | e :: rest => s' ← step p e s; run p rest s'
  end.

(** *** Reading the log *)

(** The widgets on which [destroy] was called, newest first. *)
Definition destroyed (l : list Effect) : list nat :=
  omap (fun e => match e with CallDestroy w => Some w | _ => None end) l.

(** For every entry of [initializeMeeting], whether a widget was held. *)
Definition init_entries (l : list Effect) : list bool :=
  omap (fun e => match e with InitEnter h => Some h | _ => None end) l.

Definition is_sdk_call (e : Effect) : bool :=
  match e with
  | CallGenerateKitToken _ | CallCreate _ | CallJoinRoom _ _ => true
  | _ => false
  end.

(** The calls of [generateKitTokenForTest], [create] and [joinRoom]. *)
Definition sdk_calls (l : list Effect) : list Effect :=
  List.filter is_sdk_call l.

(** The automatic retries that were scheduled. *)
Definition retries_scheduled (l : list Effect) : nat :=
  length (List.filter
            (fun e => match e with CallSetTimeout _ (RetryInit _) => true | _ => false end) l).

(** An SDK callback is addressed to the widget held in [zegoRef]. *)
Definition to_current_widget (e : Event) (s : State) : bool :=
  match e with
  | ENetworkStatusError w _ | EConnectionStateChanged w _ _
  | ELeaveRoom w | EDeviceError w _ =>
      bool_decide (wid <$> zegoRef s = Some w)
  | _ => true
  end.

(** A run in which the SDK only calls back for the widget that is held
    at that moment. *)
Fixpoint run_current (p : Props) (events : list Event) (s : State) : option State :=
  match events with
  | [] => Some s
  | e :: rest =>
      if to_current_widget e s then s' ← step p e s; run_current p rest s'
      else None
  end.

Definition is_connected_event (e : Event) : bool :=
  match e with
  | EConnectionStateChanged _ state _ => bool_decide (state = lit "CONNECTED")
  | _ => false
  end.

(** *** Predicates used in the proofs *)

(** [prepend l s] is [s] after the calls [l] (the last one first). *)
Definition prepend (l : list Effect) (s : State) : State :=
  mkState (phase s) (zegoRef s) (connectionError s) (retryCount s) (timers s)
    (now s) (nextWid s) (callbacks s) (dom s) (l ++ log s).

Definition is_stop (e : Effect) : Prop := exists t, e = TrackStop t.

(** [s'] differs from [s] in nothing that concerns the widget. *)
Definition quiet (s s' : State) : Prop :=
  phase s' = phase s /\ zegoRef s' = zegoRef s /\ nextWid s' = nextWid s /\
  destroyed (log s') = destroyed (log s) /\
  init_entries (log s') = init_entries (log s).

(** What holds in every state of a run: before the page is mounted no
    widget is held; [initializeMeeting] was never entered with a widget
    held; no widget was destroyed twice; the widgets destroyed were
    created; the widget held was created and is not destroyed. *)
Definition Inv (s : State) : Prop :=
  (phase s = Fresh -> zegoRef s = None) /\
  Forall (eq false) (init_entries (log s)) /\
  NoDup (destroyed (log s)) /\
  Forall (fun i => (i < nextWid s)%nat) (destroyed (log s)) /\
  (forall w, zegoRef s = Some w ->
             (wid w < nextWid s)%nat /\ wid w ∉ destroyed (log s)).

(** What holds all along when the page has no room identifier. *)
Definition idle (s : State) : Prop :=
  sdk_calls (log s) = [] /\ callbacks s = [] /\ timers s = [] /\ zegoRef s = None.

(** *** Sample inputs *)

Definition sample_props : Props :=
  mkProps JNull (JString (lit "abc")) (JString (lit "Ann"))
    (JString (lit "12345")) (JString (lit "secret"))
    (lit "https:") (lit "example.org").

Definition no_room_props : Props :=
  mkProps (JString []) JUndefined (JString (lit "Ann"))
    (JString (lit "12345")) (JString (lit "secret"))
    (lit "https:") (lit "example.org").

Definition no_app_id_props : Props :=
  mkProps JNull (JString (lit "abc")) (JString (lit "Ann"))
    JUndefined (JString (lit "secret"))
    (lit "https:") (lit "example.org").

Definition sdk_ok : InitEnv := mkInitEnv (lit "u-1") 1700000000000 JoinReturns.
Definition sdk_join_fails : InitEnv := mkInitEnv (lit "u-2") 1700000000000 JoinThrows.

Definition no_media : Dom := mkDom None [] [].

(** A page whose first join fails, retried by hand, then hit by one
    network error, left to retry by itself and unmounted. *)
Definition sample_run : list Event :=
  [ EMount sdk_join_fails; EClickRetry sdk_ok; ENetworkStatusError 1 sdk_ok;
    EAdvance 5000; ETimer 0 sdk_ok; EUnmount ].

(** The network stays down and the SDK reports it once for every widget
    that the retry timer creates; nothing ever connects. Widget 0 is the
    one of the first render; each error is followed by a render that
    replaces the widget (1, 3, 5, 7), and each timer, five seconds later,
    by a widget of the first render's callback (2, 4, 6). *)
Definition stale_closure_run : list Event :=
  [ EMount sdk_ok;
    ENetworkStatusError 0 sdk_ok; EAdvance 5000; ETimer 0 sdk_ok;
    ENetworkStatusError 2 sdk_ok; EAdvance 5000; ETimer 0 sdk_ok;
    ENetworkStatusError 4 sdk_ok; EAdvance 5000; ETimer 0 sdk_ok;
    ENetworkStatusError 6 sdk_ok ].




(** Credentials and an SDK with which [joinRoom] is reached and returns. *)
Definition joins (p : Props) (x : InitEnv) : Prop :=
  truthy (roomId p) = true /\ is_Some (parseInt (ZEGO_APP_ID p)) /\
  truthy (ZEGO_SERVER_SECRET p) = true /\ sdk x = JoinReturns.

End Room.


(** ** The earlier revision of the room page, [src/unnamed/part_000]

    The same component before the retry counter was added: no
    [retryCount], no [MAX_RETRIES], no check of the credentials, and a
    missing room identifier returns without a message. [cleanupMedia],
    [handleLeaveRoom] and [onDeviceError] are those of [Room], letter for
    letter; the state is [Room.State], whose [retryCount] stays 0. *)

Module Legacy.
Import Room.

Definition initializeMeeting_try (p : Props) (x : InitEnv) : Act unit :=
  let appID := parseInt (ZEGO_APP_ID p) in
  let serverSecret := ZEGO_SERVER_SECRET p in
  kitToken ← generateKitTokenForTest x
    (mkKitToken appID serverSecret (str_of (roomId p)) (uuid x)
       (str_of (js_or (fullName p)
                  (JString (lit "user" ++ number_to_string (date_now x)))))
       MEETING_DURATION);
  w ← create x kitToken;
  modify (set_zegoRef (Some w));;
  s ← get;
  if container_attached p s
  then joinRoom x w
         (mkJoinConfig
            (location_protocol p ++ lit "//" ++ location_host p
               ++ lit "/room/" ++ str_of (roomId p))
            0)
  else mret tt.

Definition initializeMeeting (p : Props) (x : InitEnv) : Act unit :=
  s0 ← get;
  modify (emit (InitEnter (holds_widget s0)));;
  if negb (truthy (roomId p)) then mret tt
  else
    try_catch (initializeMeeting_try p x)
      (fun error =>
         modify (console_error (lit "Zego initialization error:"));;
         modify (setConnectionError
                   (JString (lit "Failed to initialize meeting. Please try again.")))).

Definition onNetworkStatusError (s : State) : State :=
  let s := console_error (lit "Network error:") s in
  let s := setConnectionError
             (JString (lit "Network connection error. Attempting to reconnect...")) s in
  setTimeout (RetryInit 0) RETRY_DELAY s.

Definition onConnectionStateChanged (state : jsstring) (s : State) : State :=
  if bool_decide (state = lit "CONNECTED") then setConnectionError JNull s else s.

End Legacy.

(** ** What the log and the document say, for the properties of whole runs *)

Module RoomLog.
Import Room.

(** The tracks that [cleanupMedia] visits, in the order it visits them:
    those of [navigator.mediaDevices.getTracks()], then the stream of every
    video element, then the stream of every audio element. *)
Definition all_tracks (d : Dom) : list nat :=
  default [] (mediaDevices_getTracks d)
  ++ concat (default [] <$> (videos d ++ audios d)).

(** The tracks on which [stop] was called, newest first. *)
Definition track_stops (l : list Effect) : list nat :=
  omap (fun e => match e with TrackStop t => Some t | _ => None end) l.

(** The tokens that were asked of [generateKitTokenForTest], newest first. *)
Definition tokens (l : list Effect) : list KitToken :=
  omap (fun e => match e with CallGenerateKitToken t => Some t | _ => None end) l.

(** The calls of [joinRoom], newest first. *)
Definition join_calls (l : list Effect) : list (nat * JoinConfig) :=
  omap (fun e => match e with CallJoinRoom w cfg => Some (w, cfg) | _ => None end) l.

(** The personal link given to [joinRoom]. *)
Definition personal_link (p : Props) : jsstring :=
  location_protocol p ++ lit "//" ++ location_host p ++ lit "/room/"
    ++ str_of (roomId p).

(** A token made from checked credentials for the room of the page. *)
Definition token_ok (p : Props) (t : KitToken) : Prop :=
  tk_appID t = parseInt (ZEGO_APP_ID p) /\ is_Some (tk_appID t) /\
  tk_serverSecret t = ZEGO_SERVER_SECRET p /\ truthy (tk_serverSecret t) = true /\
  JString (tk_roomID t) = roomId p /\ tk_roomID t <> [] /\
  tk_duration t = MEETING_DURATION /\
  tk_userName t <> [] /\
  (truthy (fullName p) = true -> JString (tk_userName t) = fullName p).

(** Entries of the log that are no call to the SDK and stop no track. *)
Definition is_note (e : Effect) : Prop :=
  match e with
  | ConsoleError _ | CallSetTimeout _ _ | LocationAssign _ => True
  | _ => False
  end.

(** [s'] is [s] but for the React cells, the timers, the clock, the
    document, the phase and notes in the log. *)
Definition minor (s s' : State) : Prop :=
  zegoRef s' = zegoRef s /\ nextWid s' = nextWid s /\
  callbacks s' = callbacks s /\
  exists l, Forall is_note l /\ log s' = l ++ log s.

(** Every widget created so far is the one held or was destroyed. *)
Definition accounted (s : State) : Prop :=
  forall i, (i < nextWid s)%nat ->
            i ∈ destroyed (log s) \/ wid <$> zegoRef s = Some i.

(** Every [joinRoom] was for a widget created before, with the personal
    link of the page, and no widget was joined twice. *)
Definition joined_once (p : Props) (s : State) : Prop :=
  Forall (fun wc => (wc.1 < nextWid s)%nat /\ sharedLink_url wc.2 = personal_link p)
    (join_calls (log s)) /\
  NoDup (join_calls (log s)).*1.

(** The widget held in [zegoRef], as a list of at most one identifier. *)
Definition held_ids (s : State) : list nat :=
  match zegoRef s with
  | Some w => [wid w]
  | None => []
  end.

(** Entries among which there is no [destroy] and no entry of
    [initializeMeeting]. *)
Definition silent (l : list Effect) : Prop :=
  destroyed l = [] /\ init_entries l = [].

(** From [s] to [s'], [initializeMeeting] was entered once, with no widget
    held; what was logged before the entry ([m], older) holds the
    [destroy] of the widget that [s] held, and nothing logged after it
    ([l], newer) is a [destroy] or another entry: the widget was released
    first. *)
Definition released_before_entry (s s' : State) : Prop :=
  exists l m,
    log s' = l ++ InitEnter false :: m ++ log s /\
    silent l /\ destroyed m = held_ids s /\ init_entries m = [].

End RoomLog.

(** ** Runs of the home page *)

Module HomeRun.
Import Home.

Fixpoint run (events : list Event) (s : State) : option State :=
  match events with
  | [] => Some s
  | e :: rest => s' ← step e s; run rest s'
  end.

(** A route of a room: "/room/" followed by an identifier. *)
Definition is_room_route (route : jsstring) : Prop :=
  exists id, route = lit "/room/" ++ id.

(** The transitions that finished in a list of events. *)
Definition transitions_done (events : list Event) : nat :=
  length (List.filter (fun e => match e with TransitionDone => true | _ => false end) events).

(** One navigation may be pending. *)
Definition pending_slot (s : State) : nat := if isPending s then 1 else 0.

End HomeRun.

(** * Properties *)

(** ** The home page *)

Module HomeFacts.
Import Home.

Lemma showRoomControls_spec (name : jsval) :
  showRoomControls name = true <->
  exists n, name = JString n /\ n <> [] /\ (3 <= length n)%nat.
Proof.
  unfold showRoomControls. split.
  - destruct name as [| |[|c n]]; cbn [truthy str_of]; try discriminate.
    intros H. apply Nat.leb_le in H. exists (c :: n). by repeat split.
  - intros (n & -> & Hne & Hlen). destruct n as [|c n]; [done|].
    cbn [truthy str_of]. by apply Nat.leb_le.
Qed.

(** C3. The room-id input, the Connect button and the Create Room button
    are each part of the rendered home page exactly when the display name
    is a non-empty string of length at least 3; with a name of length 0,
    1 or 2 the page consists of the name input alone. *)
Theorem room_controls_iff_name_valid (s : State) :
  let valid := exists n, fullName s = JString n /\ n <> [] /\ (3 <= length n)%nat in
  (rendered is_RoomIdInput s = true <-> valid) /\
  (rendered is_ConnectButton s = true <-> valid) /\
  (rendered is_CreateRoomButton s = true <-> valid) /\
  (forall n, fullName s = JString n -> (length n < 3)%nat -> render s = [NameInput]).
Proof.
  intros valid. unfold rendered, render.
  pose proof (showRoomControls_spec (fullName s)) as Hspec. fold valid in Hspec.
  destruct (showRoomControls (fullName s)) eqn:Hshow; simpl.
  - repeat split; try tauto.
    intros n Hn Hlen. exfalso.
    destruct (proj1 Hspec eq_refl) as (n' & Hn' & _ & Hlen').
    rewrite Hn in Hn'. injection Hn' as ->. lia.
  - repeat split; try (intros; discriminate); try (intros Hv; apply Hspec in Hv; discriminate).
Qed.

Lemma room_controls_iff_name_valid_witness :
  rendered is_RoomIdInput (initial (JString (lit "Ann"))) = true /\
  render (initial (JString (lit "Al"))) = [NameInput].
Proof.
  pose proof (room_controls_iff_name_valid (initial (JString (lit "Ann")))) as (H1 & _).
  pose proof (room_controls_iff_name_valid (initial (JString (lit "Al")))) as (_ & _ & _ & H4).
  split.
  - apply H1. exists (lit "Ann"). repeat split; [discriminate | simpl; lia].
  - apply (H4 (lit "Al")); [reflexivity | simpl; lia].
Defined.

(** The Connect button can be pressed exactly when the room controls are
    shown, the room-id input is not empty and no navigation is pending. *)
Lemma connect_enabled_spec (s : State) :
  connect_enabled s = true <->
  showRoomControls (fullName s) = true /\ roomId s <> [] /\ isPending s = false.
Proof.
  unfold connect_enabled, render, roomControls, isRoomIdValid.
  destruct (showRoomControls (fullName s)); simpl; [|by intuition].
  destruct (roomId s) as [|c r]; simpl; [by intuition|].
  destruct (isPending s); by intuition.
Qed.



End HomeFacts.

(** ** The room page *)

Module RoomFacts.
Import Room.

(** *** Evaluating actions *)

Ltac run_act :=
  cbv [initializeMeeting initializeMeeting_try generateKitTokenForTest create
       joinRoom try_catch modify get throw mbind mret Act_bind Act_ret
       call_initializeMeeting].

(** *** [cleanupMedia] *)

Lemma prepend_nil s : prepend [] s = s.
Proof. by destruct s. Qed.

Lemma prepend_prepend l1 l2 s : prepend l1 (prepend l2 s) = prepend (l1 ++ l2) s.
Proof. unfold prepend; simpl. by rewrite app_assoc. Qed.

Lemma stop_all_prepend tracks s :
  exists l, Forall is_stop l /\ stop_all tracks s = prepend l s.
Proof.
  unfold stop_all. revert s. induction tracks as [|t tracks IH]; intros s; simpl.
  - exists []. split; [constructor | by rewrite prepend_nil].
  - destruct (IH (emit (TrackStop t) s)) as (l & Hl & ->).
    exists (l ++ [TrackStop t]). split.
    + apply Forall_app. split; [done|]. repeat constructor. by exists t.
    + unfold prepend, emit; simpl. by rewrite <- app_assoc.
Qed.

Lemma stop_streams_prepend (streams : list (option (list nat))) s :
  exists l, Forall is_stop l /\
    foldl (fun s track =>
             match track with
             | Some mediaStream => stop_all mediaStream s
             | None => s
             end) s streams = prepend l s.
Proof.
  revert s. induction streams as [|[ts|] streams IH]; intros s; simpl.
  - exists []. split; [constructor | by rewrite prepend_nil].
  - destruct (stop_all_prepend ts s) as (l1 & Hl1 & ->).
    destruct (IH (prepend l1 s)) as (l2 & Hl2 & ->).
    exists (l2 ++ l1). split; [by apply Forall_app | apply prepend_prepend].
  - apply IH.
Qed.

(** [cleanupMedia] stops tracks and then, when a widget is held, destroys
    it and clears the reference; it does nothing else. *)
Lemma cleanupMedia_shape s :
  exists l, Forall is_stop l /\
    cleanupMedia s =
      match zegoRef s with
      | Some w => set_zegoRef None (emit (CallDestroy (wid w)) (prepend l s))
      | None => prepend l s
      end.
Proof.
  unfold cleanupMedia.
  assert (exists l1, Forall is_stop l1 /\
            match mediaDevices_getTracks (dom s) with
            | Some tracks => stop_all tracks s
            | None => s
            end = prepend l1 s) as (l1 & Hl1 & ->).
  { destruct (mediaDevices_getTracks (dom s)) as [ts|].
    - apply stop_all_prepend.
    - exists []. split; [constructor | by rewrite prepend_nil]. }
  destruct (stop_streams_prepend
              (videos (dom (prepend l1 s)) ++ audios (dom (prepend l1 s)))
              (prepend l1 s)) as (l2 & Hl2 & ->).
  rewrite prepend_prepend. exists (l2 ++ l1). split; [by apply Forall_app|].
  reflexivity.
Qed.

Lemma destroyed_stops l : Forall is_stop l -> destroyed l = [].
Proof. induction 1 as [|e l [t ->] _ IH]; [done|]. by simpl. Qed.

Lemma init_entries_stops l : Forall is_stop l -> init_entries l = [].
Proof. induction 1 as [|e l [t ->] _ IH]; [done|]. by simpl. Qed.

Lemma sdk_calls_stops l : Forall is_stop l -> sdk_calls l = [].
Proof. induction 1 as [|e l [t ->] _ IH]; [done|]. by simpl. Qed.

Lemma retries_stops l l' : Forall is_stop l -> retries_scheduled (l ++ l') = retries_scheduled l'.
Proof. induction 1 as [|e l [t ->] _ IH]; [done|]. by simpl. Qed.

Lemma destroyed_app l1 l2 : destroyed (l1 ++ l2) = destroyed l1 ++ destroyed l2.
Proof. apply omap_app. Qed.

Lemma init_entries_app l1 l2 : init_entries (l1 ++ l2) = init_entries l1 ++ init_entries l2.
Proof. apply omap_app. Qed.

Lemma sdk_calls_app l1 l2 : sdk_calls (l1 ++ l2) = sdk_calls l1 ++ sdk_calls l2.
Proof. apply List.filter_app. Qed.

Lemma cleanupMedia_zegoRef s : zegoRef (cleanupMedia s) = None.
Proof.
  destruct (cleanupMedia_shape s) as (l & _ & ->).
  by destruct (zegoRef s) eqn:E.
Qed.

Lemma cleanupMedia_destroyed s :
  destroyed (log (cleanupMedia s)) =
    match zegoRef s with
    | Some w => wid w :: destroyed (log s)
    | None => destroyed (log s)
    end.
Proof.
  destruct (cleanupMedia_shape s) as (l & Hl & ->).
  destruct (zegoRef s); simpl; by rewrite destroyed_app, destroyed_stops.
Qed.

Lemma cleanupMedia_init_entries s :
  init_entries (log (cleanupMedia s)) = init_entries (log s).
Proof.
  destruct (cleanupMedia_shape s) as (l & Hl & ->).
  destruct (zegoRef s); simpl; by rewrite init_entries_app, init_entries_stops.
Qed.

Lemma cleanupMedia_sdk_calls s :
  sdk_calls (log (cleanupMedia s)) = sdk_calls (log s).
Proof.
  destruct (cleanupMedia_shape s) as (l & Hl & ->).
  destruct (zegoRef s); simpl; by rewrite sdk_calls_app, sdk_calls_stops.
Qed.

Lemma cleanupMedia_retries s :
  retries_scheduled (log (cleanupMedia s)) = retries_scheduled (log s).
Proof.
  destruct (cleanupMedia_shape s) as (l & Hl & ->).
  destruct (zegoRef s); simpl; [|by apply retries_stops].
  unfold retries_scheduled; simpl. by apply retries_stops.
Qed.

(** The other fields are left alone. *)
Lemma cleanupMedia_frame s :
  let s' := cleanupMedia s in
  phase s' = phase s /\ connectionError s' = connectionError s /\
  retryCount s' = retryCount s /\ timers s' = timers s /\ now s' = now s /\
  nextWid s' = nextWid s /\ callbacks s' = callbacks s /\ dom s' = dom s.
Proof.
  simpl. destruct (cleanupMedia_shape s) as (l & Hl & ->).
  by destruct (zegoRef s).
Qed.

(** *** [initializeMeeting] *)

Ltac init_cases p x s :=
  run_act; unfold container_attached, is_mounted;
  destruct (truthy (roomId p)) eqn:Hroom; cbn;
  [ destruct (parseInt (ZEGO_APP_ID p)) as [appID|] eqn:HappID; cbn;
    [ destruct (truthy (ZEGO_SERVER_SECRET p)) eqn:Hsecret; cbn;
      [ destruct (sdk x) eqn:Hsdk; cbn;
        try (destruct (phase s) eqn:Hphase; cbn;
             try rewrite Hsdk; cbn)
      | ]
    | ]
  | ].

(** What a run of [initializeMeeting] leaves of the state it started in:
    it completes normally, writes its entry, calls no [destroy], keeps
    the retry count, the timers, the clock and the phase, and either
    keeps the widget reference or stores a widget that is new. *)
Lemma initializeMeeting_frame p rc x s :
  let r := initializeMeeting p rc x s in
  r.1 = Normal tt /\
  init_entries (log r.2) = holds_widget s :: init_entries (log s) /\
  destroyed (log r.2) = destroyed (log s) /\
  retries_scheduled (log r.2) = retries_scheduled (log s) /\
  retryCount r.2 = retryCount s /\ timers r.2 = timers s /\
  now r.2 = now s /\ phase r.2 = phase s /\ dom r.2 = dom s /\
  ((zegoRef r.2 = zegoRef s /\ nextWid r.2 = nextWid s /\ callbacks r.2 = callbacks s) \/
   (exists t, zegoRef r.2 = Some (mkWidget (nextWid s) t) /\
              nextWid r.2 = S (nextWid s) /\
              (callbacks r.2 = callbacks s \/
               exists cfg, closure_retryCount cfg = rc /\
                           callbacks r.2 = (nextWid s, cfg) :: callbacks s))).
Proof.
  init_cases p x s; repeat split; eauto 10.
  right. eexists. do 2 (split; [reflexivity|]). right.
  eexists (mkJoinConfig _ rc). by split.
Qed.

(** C8. The query parameter [roomID] decides the room identifier whenever
    it is a non-empty string; the path segment is used when the query
    parameter is missing or empty; and with an empty query value and no
    path segment the page renders the error view. *)
Theorem roomId_query_parameter_first (p : Props) :
  (forall c r, searchRoomID p = JString (c :: r) -> roomId p = JString (c :: r)) /\
  (searchRoomID p = JNull \/ searchRoomID p = JUndefined \/ searchRoomID p = JString [] ->
   roomId p = pathRoomid p) /\
  (searchRoomID p = JString [] -> pathRoomid p = JUndefined ->
   forall s, render p s = ErrorView (lit "No room ID provided")).
Proof.
  unfold render, roomId, js_or. repeat split.
  - by intros c r ->.
  - by intros [-> | [-> | ->]].
  - by intros -> ->.
Qed.

Lemma roomId_query_parameter_first_witness :
  roomId (mkProps (JString (lit "q")) (JString (lit "abc")) JNull JNull JNull [] [])
    = JString (lit "q") /\
  roomId (mkProps (JString []) (JString (lit "abc")) JNull JNull JNull [] [])
    = JString (lit "abc") /\
  render no_room_props (initial no_media) = ErrorView (lit "No room ID provided").
Proof.
  split; [|split].
  - by eapply (proj1 (roomId_query_parameter_first _)).
  - apply (proj1 (proj2 (roomId_query_parameter_first
             (mkProps (JString []) (JString (lit "abc")) JNull JNull JNull [] [])))).
    right. by right.
  - by apply (proj2 (proj2 (roomId_query_parameter_first no_room_props))).
Defined.

(** The room identifier is missing exactly when neither source gives a
    non-empty string. *)
Lemma roomId_missing_iff (p : Props) :
  truthy (roomId p) = false <->
  truthy (searchRoomID p) = false /\ truthy (pathRoomid p) = false.
Proof.
  unfold roomId, js_or. destruct (truthy (searchRoomID p)) eqn:Hq; [|by intuition].
  rewrite Hq. by intuition.
Qed.

(** With no room identifier, [initializeMeeting] writes the message and
    returns. *)
Lemma initializeMeeting_no_room p rc x s :
  truthy (roomId p) = false ->
  initializeMeeting p rc x s =
    (Normal tt,
     setConnectionError (JString (lit "No room ID provided"))
       (emit (InitEnter (holds_widget s)) s)).
Proof. intros H. run_act. by rewrite H. Qed.

Lemma idle_dispatch p e s s' :
  truthy (roomId p) = false -> idle s -> dispatch p e s = Some s' -> idle s'.
Proof.
  intros Hroom (Hcalls & Hcb & Htm & Href) Hstep. unfold dispatch in Hstep.
  destruct e; try done; rewrite ?Hcb, ?Htm in Hstep; try done.
  - destruct (is_mounted s); [|done]. injection Hstep as <-.
    destruct (cleanupMedia_frame s) as (_ & _ & _ & Ht & _ & _ & Hc & _).
    unfold idle; simpl.
    by rewrite cleanupMedia_sdk_calls, cleanupMedia_zegoRef, Ht, Hc.
  - destruct (0 <=? ms); [|done]. by injection Hstep as <-.
  - by injection Hstep as <-.
  - unfold render in Hstep. rewrite Hroom in Hstep. by destruct (is_mounted s).
Qed.

Lemma idle_step p e s s' :
  truthy (roomId p) = false -> idle s -> step p e s = Some s' -> idle s'.
Proof.
  intros Hroom Hidle Hstep. unfold step in Hstep.
  destruct (phase s) eqn:Hphase; [| | |done].
  - destruct e; try done. injection Hstep as <-.
    unfold call_initializeMeeting. rewrite initializeMeeting_no_room by done.
    destruct Hidle as (? & ? & ? & ?). by repeat split.
  - by eapply idle_dispatch.
  - by eapply idle_dispatch.
Qed.

Lemma idle_run p events s s' :
  truthy (roomId p) = false -> idle s -> run p events s = Some s' -> idle s'.
Proof.
  intros Hroom. revert s. induction events as [|e events IH]; intros s Hs Hrun.
  - by injection Hrun as <-.
  - simpl in Hrun. destruct (step p e s) as [s1|] eqn:Hstep; [|done].
    eapply IH; [|exact Hrun]. by eapply idle_step.
Qed.

(** C2. When neither the query parameter nor the path segment gives a
    non-empty room identifier, every render is the error view with the
    text "No room ID provided"; [initializeMeeting] returns after
    setting that message, without a token, a [create] or a [joinRoom];
    and in no run of the page is any of the three SDK calls ever made
    or a widget ever held. *)
Theorem no_room_identifier_no_join (p : Props) :
  truthy (roomId p) = false ->
  (forall s, render p s = ErrorView (lit "No room ID provided")) /\
  (forall rc x s,
     initializeMeeting p rc x s =
       (Normal tt,
        setConnectionError (JString (lit "No room ID provided"))
          (emit (InitEnter (holds_widget s)) s))) /\
  (forall d events s,
     run p events (initial d) = Some s ->
     sdk_calls (log s) = [] /\ zegoRef s = None).
Proof.
  intros Hroom. repeat split.
  - intros s. unfold render. by rewrite Hroom.
  - intros. by apply initializeMeeting_no_room.
  - eapply (idle_run p events (initial d) s Hroom); [by repeat split | done].
  - eapply (idle_run p events (initial d) s Hroom); [by repeat split | done].
Qed.

Lemma no_room_identifier_no_join_witness :
  render no_room_props (initial no_media) = ErrorView (lit "No room ID provided") /\
  exists s,
    run no_room_props [EMount sdk_ok; EAdvance 5000; EUnmount] (initial no_media) = Some s /\
    sdk_calls (log s) = [] /\ zegoRef s = None.
Proof.
  destruct (no_room_identifier_no_join no_room_props eq_refl) as (Hview & _ & Hrun).
  split; [apply Hview|].
  destruct (run no_room_props [EMount sdk_ok; EAdvance 5000; EUnmount]
              (initial no_media)) as [s|] eqn:Hs;
    [|vm_compute in Hs; discriminate Hs].
  exists s. split; [reflexivity|]. exact (Hrun no_media _ s Hs).
Defined.

(** C4. With a room identifier, when [parseInt] of the application
    identifier is NaN or the server secret is missing (or empty), the
    body of the [try] throws before any SDK call, and
    [initializeMeeting] ends with the connection error set to "Failed to
    initialize meeting. Please try again.". *)
Theorem invalid_credentials_generic_failure (p : Props) rc x s :
  truthy (roomId p) = true ->
  parseInt (ZEGO_APP_ID p) = None \/ truthy (ZEGO_SERVER_SECRET p) = false ->
  (exists error, initializeMeeting_try p rc x s = (Thrown error, s)) /\
  initializeMeeting p rc x s =
    (Normal tt,
     setConnectionError
       (JString (lit "Failed to initialize meeting. Please try again."))
       (console_error (lit "Zego initialization error:")
          (emit (InitEnter (holds_widget s)) s))) /\
  connectionError (call_initializeMeeting p rc x s) =
    JString (lit "Failed to initialize meeting. Please try again.").
Proof.
  intros Hroom Hbad. run_act. rewrite Hroom. cbn.
  destruct (parseInt (ZEGO_APP_ID p)) as [appID|] eqn:HappID; cbn.
  - destruct Hbad as [|Hsecret]; [done|]. rewrite Hsecret. cbn. eauto.
  - eauto.
Qed.

Lemma invalid_credentials_generic_failure_witness :
  parseInt (ZEGO_APP_ID no_app_id_props) = None /\
  connectionError
    (call_initializeMeeting no_app_id_props 0 sdk_ok (set_phase Mounted (initial no_media)))
  = JString (lit "Failed to initialize meeting. Please try again.").
Proof.
  split; [reflexivity|].
  apply (invalid_credentials_generic_failure no_app_id_props 0 sdk_ok
           (set_phase Mounted (initial no_media)) eq_refl).
  by left.
Defined.

(** C5. [initializeMeeting] always completes normally and never changes
    the retry count. Whenever the body of its [try] throws, in a state
    [s1], the error is caught: up to [s1] neither React cell was written,
    and all that follows is the logged error and the connection-error
    message. *)
Theorem initializeMeeting_catches_every_error (p : Props) rc x s :
  let r := initializeMeeting p rc x s in
  r.1 = Normal tt /\
  retryCount r.2 = retryCount s /\
  (forall error s1,
     truthy (roomId p) = true ->
     initializeMeeting_try p rc x (emit (InitEnter (holds_widget s)) s)
       = (Thrown error, s1) ->
     connectionError s1 = connectionError s /\
     retryCount s1 = retryCount s /\
     r.2 = setConnectionError
             (JString (lit "Failed to initialize meeting. Please try again."))
             (console_error (lit "Zego initialization error:") s1)).
Proof.
  init_cases p x s; (split; [done|]); (split; [done|]);
    intros error s1 Ht Heq; try done; injection Heq as <- <-; by repeat split.
Qed.

Lemma initializeMeeting_catches_every_error_witness :
  let s := set_phase Mounted (initial no_media) in
  let r := initializeMeeting sample_props 0 sdk_join_fails s in
  r.1 = Normal tt /\
  connectionError r.2 = JString (lit "Failed to initialize meeting. Please try again.") /\
  retryCount r.2 = 0 /\ (wid <$> zegoRef r.2) = Some 0%nat.
Proof.
  intros s r.
  destruct (initializeMeeting_catches_every_error sample_props 0 sdk_join_fails s)
    as (Hnormal & Hrc & Hcatch).
  split; [exact Hnormal|].
  destruct (initializeMeeting_try sample_props 0 sdk_join_fails
              (emit (InitEnter (holds_widget s)) s)) as [[[]|error] s1] eqn:Htry;
    [vm_compute in Htry; discriminate Htry|].
  destruct (Hcatch error s1 eq_refl eq_refl) as (_ & _ & Hr).
  fold r in Hr. rewrite Hr.
  vm_compute in Htry. injection Htry as <- <-. by repeat split.
Defined.

(** *** The invariant of a run *)

Lemma quiet_refl s : quiet s s.
Proof. by repeat split. Qed.

Lemma quiet_trans s1 s2 s3 : quiet s1 s2 -> quiet s2 s3 -> quiet s1 s3.
Proof.
  intros (A1 & A2 & A3 & A4 & A5) (B1 & B2 & B3 & B4 & B5).
  repeat split; congruence.
Qed.

Lemma Inv_quiet s s' : Inv s -> quiet s s' -> Inv s'.
Proof.
  intros (I1 & I2 & I3 & I4 & I5) (Q1 & Q2 & Q3 & Q4 & Q5).
  unfold Inv. by rewrite Q1, Q2, Q3, Q4, Q5.
Qed.

Lemma Inv_set_phase v s : v <> Fresh -> Inv s -> Inv (set_phase v s).
Proof. intros Hv (I1 & I2 & I3 & I4 & I5). split; [by intros ?|done]. Qed.

Lemma quiet_onNetworkStatusError rc s : quiet s (onNetworkStatusError rc s).
Proof. unfold onNetworkStatusError. by destruct (rc <? MAX_RETRIES). Qed.

Lemma quiet_onConnectionStateChanged state s :
  quiet s (onConnectionStateChanged state s).
Proof. unfold onConnectionStateChanged. by case_bool_decide. Qed.

Lemma quiet_onDeviceError message s : quiet s (onDeviceError message s).
Proof. done. Qed.

Lemma quiet_setTimeout a delay s : quiet s (setTimeout a delay s).
Proof. done. Qed.

Lemma Inv_cleanupMedia s : Inv s -> Inv (cleanupMedia s).
Proof.
  intros (I1 & I2 & I3 & I4 & I5).
  destruct (cleanupMedia_frame s) as (Hp & _ & _ & _ & _ & Hn & _).
  unfold Inv.
  rewrite cleanupMedia_zegoRef, cleanupMedia_init_entries,
    cleanupMedia_destroyed, Hp, Hn.
  repeat split; try done.
  - destruct (zegoRef s) as [w|] eqn:Hw; [|done].
    destruct (I5 w eq_refl) as [_ Hfresh]. by constructor.
  - destruct (zegoRef s) as [w|] eqn:Hw; [|done].
    destruct (I5 w eq_refl) as [Hlt _]. by constructor.
Qed.

Lemma Inv_initializeMeeting p rc x s :
  Inv s -> zegoRef s = None -> phase s <> Fresh ->
  Inv (call_initializeMeeting p rc x s).
Proof.
  intros (I1 & I2 & I3 & I4 & I5) Href Hphase.
  destruct (initializeMeeting_frame p rc x s)
    as (_ & Hi & Hd & _ & _ & _ & _ & Hp & _ & Hw).
  unfold call_initializeMeeting, Inv. rewrite Hi, Hd, Hp.
  unfold holds_widget. rewrite Href.
  split; [done|]. split; [by constructor|]. split; [done|].
  destruct Hw as [(Hz & Hn & _) | (t & Hz & Hn & _)]; rewrite Hz, Hn.
  - split; [done|]. by rewrite Href.
  - split.
    + eapply Forall_impl; [exact I4|]. simpl; lia.
    + intros w [= <-]. simpl. split; [lia|].
      intros Hin. eapply Forall_forall in I4; [|exact Hin]. simpl in I4; lia.
Qed.

Lemma cleanupMedia_phase s : phase (cleanupMedia s) = phase s.
Proof. by destruct (cleanupMedia_frame s) as (-> & _). Qed.

Lemma Inv_retry_callback p rc x s :
  Inv s -> phase s <> Fresh -> Inv (retry_callback p rc x s).
Proof.
  intros HI Hphase. unfold retry_callback.
  apply Inv_initializeMeeting.
  - by apply Inv_cleanupMedia.
  - apply cleanupMedia_zegoRef.
  - by rewrite cleanupMedia_phase.
Qed.

Lemma Inv_rerender p prev x s :
  Inv s -> phase s <> Fresh -> Inv (rerender p prev x s).
Proof.
  intros HI Hphase. unfold rerender.
  destruct (is_mounted s && negb (retryCount s =? prev)); [|done].
  by apply Inv_retry_callback.
Qed.

Lemma Inv_dispatch p e s s' :
  Inv s -> phase s <> Fresh -> dispatch p e s = Some s' -> Inv s'.
Proof.
  intros HI Hphase Hstep. unfold dispatch in Hstep.
  destruct e; try done.
  - destruct (is_mounted s); [|done]. injection Hstep as <-.
    apply Inv_set_phase; [done|]. by apply Inv_cleanupMedia.
  - destruct (0 <=? ms); [|done]. injection Hstep as <-.
    by eapply Inv_quiet.
  - injection Hstep as <-. by eapply Inv_quiet.
  - destruct (find_config w (callbacks s)) as [cfg|]; [|done].
    injection Hstep as <-. apply Inv_rerender.
    + eapply Inv_quiet; [exact HI | apply quiet_onNetworkStatusError].
    + by destruct (quiet_onNetworkStatusError (closure_retryCount cfg) s) as (-> & _).
  - destruct (find_config w (callbacks s)) as [cfg|]; [|done].
    injection Hstep as <-. apply Inv_rerender.
    + eapply Inv_quiet; [exact HI | apply quiet_onConnectionStateChanged].
    + by destruct (quiet_onConnectionStateChanged state s) as (-> & _).
  - destruct (find_config w (callbacks s)) as [cfg|]; [|done].
    injection Hstep as <-. unfold handleLeaveRoom.
    eapply Inv_quiet; [|apply quiet_setTimeout]. by apply Inv_cleanupMedia.
  - destruct (find_config w (callbacks s)) as [cfg|]; [|done].
    injection Hstep as <-.
    eapply Inv_quiet; [exact HI | apply quiet_onDeviceError].
  - destruct (timers s !! i) as [t|]; [|done]. simpl in Hstep.
    destruct (due t <=? now s); [|done]. injection Hstep as <-.
    unfold fire. destruct (action t).
    + apply Inv_retry_callback; [by eapply Inv_quiet | done].
    + apply Inv_set_phase; [done|]. by eapply Inv_quiet.
  - destruct (is_mounted s); [|done].
    destruct (render p s) as [|[b|]]; try done. injection Hstep as <-.
    unfold onClickRetry.
    apply (Inv_retry_callback p (retryCount s) x (setConnectionError JNull s));
      [by eapply Inv_quiet | done].
Qed.

Lemma Inv_step p e s s' : Inv s -> step p e s = Some s' -> Inv s'.
Proof.
  intros HI Hstep. unfold step in Hstep.
  destruct (phase s) eqn:Hphase; [| | |done].
  - destruct e; try done. injection Hstep as <-.
    apply Inv_initializeMeeting; [|by apply HI|done].
    by apply Inv_set_phase.
  - eapply Inv_dispatch; [exact HI | by rewrite Hphase | exact Hstep].
  - eapply Inv_dispatch; [exact HI | by rewrite Hphase | exact Hstep].
Qed.

Lemma Inv_initial d : Inv (initial d).
Proof. repeat split; try done; constructor. Qed.

Lemma Inv_run p events s s' : Inv s -> run p events s = Some s' -> Inv s'.
Proof.
  revert s. induction events as [|e events IH]; intros s HI Hrun.
  - by injection Hrun as <-.
  - simpl in Hrun. destruct (step p e s) as [s1|] eqn:Hstep; [|done].
    eapply IH; [|exact Hrun]. by eapply Inv_step.
Qed.

(** *** The widget is released before every start *)

Lemma elem_of_init_entries held l : InitEnter held ∈ l <-> held ∈ init_entries l.
Proof.
  unfold init_entries. rewrite list_elem_of_omap. split.
  - intros H. by exists (InitEnter held).
  - intros (e & He & Heq). destruct e; try done. by injection Heq as ->.
Qed.

Lemma retry_callback_enters_empty p rc x s :
  init_entries (log (retry_callback p rc x s)) = false :: init_entries (log s).
Proof.
  unfold retry_callback, call_initializeMeeting.
  destruct (initializeMeeting_frame p rc x (cleanupMedia s)) as (_ & -> & _).
  unfold holds_widget. by rewrite cleanupMedia_zegoRef, cleanupMedia_init_entries.
Qed.

Lemma onClickRetry_enters_empty p rc x s :
  init_entries (log (onClickRetry p rc x s)) = false :: init_entries (log s).
Proof. apply (retry_callback_enters_empty p rc x (setConnectionError JNull s)). Qed.

Lemma rerender_enters_empty p prev x s :
  init_entries (log (rerender p prev x s)) = init_entries (log s) \/
  init_entries (log (rerender p prev x s)) = false :: init_entries (log s).
Proof.
  unfold rerender. destruct (is_mounted s && negb (retryCount s =? prev)).
  - right. apply retry_callback_enters_empty.
  - by left.
Qed.

(** C10. After [cleanupMedia] the widget reference is null; a call that
    finds a widget calls its [destroy] once, and a call repeated at once
    calls no [destroy]; and in every run of the page no widget has
    [destroy] called on it twice. *)
Theorem cleanupMedia_destroys_each_widget_once :
  (forall s, zegoRef (cleanupMedia s) = None) /\
  (forall s w, zegoRef s = Some w ->
               destroyed (log (cleanupMedia s)) = wid w :: destroyed (log s)) /\
  (forall s, destroyed (log (cleanupMedia (cleanupMedia s)))
             = destroyed (log (cleanupMedia s))) /\
  (forall p d events s,
     run p events (initial d) = Some s -> NoDup (destroyed (log s))).
Proof.
  split; [apply cleanupMedia_zegoRef|]. split; [|split].
  - intros s w Hw. by rewrite cleanupMedia_destroyed, Hw.
  - intros s. by rewrite (cleanupMedia_destroyed (cleanupMedia s)), cleanupMedia_zegoRef.
  - intros p d events s Hrun.
    by destruct (Inv_run p events (initial d) s (Inv_initial d) Hrun) as (_ & _ & H & _).
Qed.

Lemma cleanupMedia_destroys_each_widget_once_witness :
  exists s, run sample_props sample_run (initial no_media) = Some s /\
            NoDup (destroyed (log s)) /\ destroyed (log s) = [3; 2; 1; 0]%nat.
Proof.
  destruct (run sample_props sample_run (initial no_media)) as [s|] eqn:Hrun;
    [|vm_compute in Hrun; discriminate Hrun].
  exists s. split; [reflexivity|]. split.
  - destruct cleanupMedia_destroys_each_widget_once as (_ & _ & _ & H).
    exact (H sample_props no_media sample_run s Hrun).
  - vm_compute in Hrun. injection Hrun as <-. reflexivity.
Defined.

(** *** The retry counter *)

(** A network error below the limit of the callback's own render: the
    message is set, the counter is incremented and a retry is scheduled
    [RETRY_DELAY] from now. The limit is tested on [rc], the count that the
    callback captured, not on the count in the state. *)
Lemma onNetworkStatusError_below_limit rc s :
  rc < MAX_RETRIES ->
  let s' := onNetworkStatusError rc s in
  connectionError s' = JString (lit "Network connection error. Attempting to reconnect...") /\
  retryCount s' = retryCount s + 1 /\
  timers s' = timers s ++ [mkTimer (now s + 5000) (RetryInit rc)] /\
  retries_scheduled (log s') = S (retries_scheduled (log s)).
Proof.
  intros Hlt. unfold onNetworkStatusError.
  apply Z.ltb_lt in Hlt. by rewrite Hlt.
Qed.

(** A network error at the limit of the callback's own render: the second
    message replaces the first and nothing is scheduled. *)
Lemma onNetworkStatusError_at_limit rc s :
  MAX_RETRIES <= rc ->
  let s' := onNetworkStatusError rc s in
  connectionError s' = JString (lit "Maximum retry attempts reached. Please check your network.") /\
  retryCount s' = retryCount s /\ timers s' = timers s /\
  retries_scheduled (log s') = retries_scheduled (log s).
Proof.
  intros Hge. unfold onNetworkStatusError.
  apply Z.ltb_ge in Hge. by rewrite Hge.
Qed.

Lemma onConnectionStateChanged_connected s :
  let s' := onConnectionStateChanged (lit "CONNECTED") s in
  connectionError s' = JNull /\ retryCount s' = 0.
Proof. unfold onConnectionStateChanged. by rewrite bool_decide_eq_true_2. Qed.

Lemma onConnectionStateChanged_other state s :
  state <> lit "CONNECTED" -> onConnectionStateChanged state s = s.
Proof. intros H. unfold onConnectionStateChanged. by rewrite bool_decide_eq_false_2. Qed.

(** The timer of a retry runs [cleanupMedia] and then the
    [initializeMeeting] of the render that scheduled it. *)
Lemma fire_retry p due rc x s :
  fire p (mkTimer due (RetryInit rc)) x s
  = call_initializeMeeting p rc x (cleanupMedia s).
Proof. reflexivity. Qed.

Lemma cleanupMedia_retryCount s : retryCount (cleanupMedia s) = retryCount s.
Proof. by destruct (cleanupMedia_frame s) as (_ & _ & -> & _). Qed.

Lemma call_initializeMeeting_retryCount p rc x s :
  retryCount (call_initializeMeeting p rc x s) = retryCount s.
Proof.
  unfold call_initializeMeeting.
  by destruct (initializeMeeting_frame p rc x s) as (_ & _ & _ & _ & -> & _).
Qed.

Lemma rerender_retryCount p prev x s :
  retryCount (rerender p prev x s) = retryCount s.
Proof.
  unfold rerender. destruct (is_mounted s && negb (retryCount s =? prev)); [|done].
  by rewrite call_initializeMeeting_retryCount, cleanupMedia_retryCount.
Qed.

(** The counter never goes below zero. *)
Lemma retryCount_nonneg_step p e s s' :
  0 <= retryCount s -> step p e s = Some s' -> 0 <= retryCount s'.
Proof.
  intros Hs Hstep. unfold step in Hstep.
  assert (dispatch p e s = Some s' -> 0 <= retryCount s') as Hdispatch.
  { clear Hstep. unfold dispatch. intros Hstep. destruct e; try done.
    - destruct (is_mounted s); [|done]. injection Hstep as <-.
      simpl. by rewrite cleanupMedia_retryCount.
    - destruct (0 <=? ms); [|done]. by injection Hstep as <-.
    - by injection Hstep as <-.
    - destruct (find_config w (callbacks s)) as [cfg|]; [|done].
      injection Hstep as <-. rewrite rerender_retryCount.
      unfold onNetworkStatusError.
      destruct (closure_retryCount cfg <? MAX_RETRIES); simpl; lia.
    - destruct (find_config w (callbacks s)) as [cfg|]; [|done].
      injection Hstep as <-. rewrite rerender_retryCount.
      unfold onConnectionStateChanged. by case_bool_decide.
    - destruct (find_config w (callbacks s)) as [cfg|]; [|done].
      injection Hstep as <-. unfold handleLeaveRoom. simpl.
      by rewrite cleanupMedia_retryCount.
    - destruct (find_config w (callbacks s)) as [cfg|]; [|done].
      by injection Hstep as <-.
    - destruct (timers s !! i) as [t|]; [|done]. simpl in Hstep.
      destruct (due t <=? now s); [|done]. injection Hstep as <-.
      unfold fire, retry_callback. destruct (action t); [|done].
      by rewrite call_initializeMeeting_retryCount, cleanupMedia_retryCount.
    - destruct (is_mounted s); [|done].
      destruct (render p s) as [|[b|]]; try done. injection Hstep as <-.
      unfold onClickRetry.
      by rewrite call_initializeMeeting_retryCount, cleanupMedia_retryCount. }
  destruct (phase s); [|by apply Hdispatch|by apply Hdispatch|done].
  destruct e; try done. injection Hstep as <-.
  by rewrite call_initializeMeeting_retryCount.
Qed.

Lemma retryCount_nonneg_run p events s s' :
  0 <= retryCount s -> run p events s = Some s' -> 0 <= retryCount s'.
Proof.
  revert s. induction events as [|e events IH]; intros s Hs Hrun.
  - by injection Hrun as <-.
  - simpl in Hrun. destruct (step p e s) as [s1|] eqn:Hstep; [|done].
    eapply IH; [|exact Hrun]. by eapply retryCount_nonneg_step.
Qed.



Lemma find_config_head w cfg l : find_config w ((w, cfg) :: l) = Some cfg.
Proof. simpl. by rewrite Nat.eqb_refl. Qed.






(** *** The earlier revision *)

(** There too [initializeMeeting] completes normally whatever the SDK
    does, and writes no React cell but the connection error. *)
Lemma Legacy_initializeMeeting_never_throws p x s :
  let r := Legacy.initializeMeeting p x s in
  r.1 = Normal tt /\ retryCount r.2 = retryCount s /\ timers r.2 = timers s.
Proof.
  cbv [Legacy.initializeMeeting Legacy.initializeMeeting_try
       generateKitTokenForTest create joinRoom try_catch modify get throw
       mbind mret Act_bind Act_ret].
  unfold container_attached, is_mounted.
  destruct (truthy (roomId p)); cbn; [|done].
  destruct (sdk x) eqn:Hsdk; cbn; try done;
    destruct (phase s); cbn; rewrite ?Hsdk; by cbn.
Qed.

(** There every network error schedules a retry: no bound exists. *)
Lemma Legacy_onNetworkStatusError_always_retries s :
  timers (Legacy.onNetworkStatusError s)
  = timers s ++ [mkTimer (now s + RETRY_DELAY) (RetryInit 0)].
Proof. reflexivity. Qed.

(** C9. The retry counter is not bounded by [MAX_RETRIES]: in the run
    [stale_closure_run], where every callback is addressed to the widget
    held at that moment and nothing ever connects, the counter reaches 4.
    The retry timer re-invokes the [initializeMeeting] of the first
    render, whose widgets test the limit against the count 0 that they
    captured. *)
Theorem retryCount_exceeds_MAX_RETRIES :
  (retryCount <$> run_current sample_props stale_closure_run (initial no_media))
    = Some 4 /\
  MAX_RETRIES < 4.
Proof. split; [by vm_compute | done]. Qed.

(** C1. The automatic retry is not bounded by [MAX_RETRIES] either: in the
    same run, which has no connection-state callback at all, a retry was
    scheduled four times, the fourth is pending, and the message shown is
    still the one announcing a reconnection. *)
Theorem fourth_retry_without_connection :
  existsb is_connected_event stale_closure_run = false /\
  ((fun s => (retries_scheduled (log s), timers s, connectionError s))
     <$> run_current sample_props stale_closure_run (initial no_media))
  = Some (4%nat, [mkTimer 20000 (RetryInit 0)],
          JString (lit "Network connection error. Attempting to reconnect...")) /\
  (Z.of_nat 4 > MAX_RETRIES).
Proof. split; [by vm_compute|]. split; [by vm_compute | done]. Qed.

(** *** Changes that concern no widget *)

Import RoomLog.

(** *** Properties kept along every run *)

Lemma minor_refl s : minor s s.
Proof. repeat split; try done. by exists []. Qed.

Lemma minor_trans s1 s2 s3 : minor s1 s2 -> minor s2 s3 -> minor s1 s3.
Proof.
  intros (A1 & A2 & A3 & l1 & Hl1 & A5) (B1 & B2 & B3 & l2 & Hl2 & B5).
  split; [congruence|]. split; [congruence|]. split; [congruence|].
  exists (l2 ++ l1). split; [by apply Forall_app|]. by rewrite B5, A5, app_assoc.
Qed.

Lemma minor_note e s : is_note e -> minor s (emit e s).
Proof. intros He. repeat split; try done. exists [e]. by repeat constructor. Qed.

Lemma minor_onNetworkStatusError rc s : minor s (onNetworkStatusError rc s).
Proof.
  unfold onNetworkStatusError.
  destruct (rc <? MAX_RETRIES); repeat split; try done.
  - exists [CallSetTimeout RETRY_DELAY (RetryInit rc); ConsoleError (lit "Network error:")].
    by repeat constructor.
  - exists [ConsoleError (lit "Network error:")]. by repeat constructor.
Qed.

Lemma minor_onConnectionStateChanged state s : minor s (onConnectionStateChanged state s).
Proof.
  unfold onConnectionStateChanged. case_bool_decide; [|apply minor_refl].
  repeat split; try done. by exists [].
Qed.

Lemma minor_onDeviceError message s : minor s (onDeviceError message s).
Proof.
  repeat split; try done. exists [ConsoleError (lit "Device error:")].
  by repeat constructor.
Qed.

Lemma minor_setTimeout a delay s : minor s (setTimeout a delay s).
Proof.
  repeat split; try done. exists [CallSetTimeout delay a]. by repeat constructor.
Qed.

Lemma minor_cells s phase' error rc timers' now' dom' :
  minor s (mkState phase' (zegoRef s) error rc timers' now' (nextWid s)
             (callbacks s) dom' (log s)).
Proof. repeat split; try done. by exists []. Qed.

(** A property of the state is kept by every step as soon as it is kept
    by [cleanupMedia], by [initializeMeeting] started without a widget on a
    page that was mounted, and by the changes that are [minor]. *)
Lemma step_preserves (P : State -> Prop) (p : Props) :
  (forall s, P s -> P (cleanupMedia s)) ->
  (forall rc x s, P s -> zegoRef s = None -> phase s <> Fresh ->
                  P (call_initializeMeeting p rc x s)) ->
  (forall s s', P s -> minor s s' -> P s') ->
  forall e s s', Inv s -> P s -> step p e s = Some s' -> P s'.
Proof.
  intros Hclean Hinit Hminor e s s' HI HP Hstep.
  assert (forall rc x s0, P s0 -> phase s0 <> Fresh -> P (retry_callback p rc x s0)) as Hretry.
  { intros rc x s0 HP0 Hph. unfold retry_callback. apply Hinit.
    - by apply Hclean.
    - apply cleanupMedia_zegoRef.
    - by rewrite cleanupMedia_phase. }
  assert (forall prev x s0, P s0 -> phase s0 <> Fresh -> P (rerender p prev x s0)) as Hrerender.
  { intros prev x s0 HP0 Hph. unfold rerender.
    destruct (is_mounted s0 && negb (retryCount s0 =? prev)); [|done].
    by apply Hretry. }
  unfold step in Hstep.
  assert (phase s <> Fresh -> dispatch p e s = Some s' -> P s') as Hdispatch.
  { clear Hstep. intros Hph Hstep. unfold dispatch in Hstep. destruct e; try done.
    - destruct (is_mounted s); [|done]. injection Hstep as <-.
      eapply Hminor; [apply (Hclean s HP)|]. apply minor_cells.
    - destruct (0 <=? ms); [|done]. injection Hstep as <-.
      eapply Hminor; [exact HP | apply minor_cells].
    - injection Hstep as <-. eapply Hminor; [exact HP | apply minor_cells].
    - destruct (find_config w (callbacks s)) as [cfg|]; [|done].
      injection Hstep as <-.
      apply Hrerender; [eapply Hminor; [exact HP | apply minor_onNetworkStatusError]|].
      by destruct (quiet_onNetworkStatusError (closure_retryCount cfg) s) as (-> & _).
    - destruct (find_config w (callbacks s)) as [cfg|]; [|done].
      injection Hstep as <-.
      apply Hrerender; [eapply Hminor; [exact HP | apply minor_onConnectionStateChanged]|].
      by destruct (quiet_onConnectionStateChanged state s) as (-> & _).
    - destruct (find_config w (callbacks s)) as [cfg|]; [|done].
      injection Hstep as <-. unfold handleLeaveRoom.
      eapply Hminor; [apply (Hclean s HP) | apply minor_setTimeout].
    - destruct (find_config w (callbacks s)) as [cfg|]; [|done].
      injection Hstep as <-.
      eapply Hminor; [exact HP | apply minor_onDeviceError].
    - destruct (timers s !! i) as [t|]; [|done]. simpl in Hstep.
      destruct (due t <=? now s); [|done]. injection Hstep as <-.
      assert (minor s (set_timers (delete i (timers s)) s)) as Hm by apply minor_cells.
      unfold fire. destruct (action t).
      + apply Hretry; [by eapply Hminor | done].
      + eapply Hminor; [exact HP|].
        eapply minor_trans; [exact Hm|].
        eapply minor_trans; [apply (minor_note (LocationAssign (lit "/"))); done|].
        apply minor_cells.
    - destruct (is_mounted s); [|done].
      destruct (render p s) as [|[b|]]; try done. injection Hstep as <-.
      unfold onClickRetry.
      apply (Hretry (retryCount s) x (setConnectionError JNull s)); [|done].
      eapply Hminor; [exact HP | apply minor_cells]. }
  destruct (phase s) eqn:Hphase; [| by apply Hdispatch | by apply Hdispatch | done].
  destruct e; try done. injection Hstep as <-.
  apply Hinit; [|by apply HI|done].
  eapply Hminor; [exact HP | apply minor_cells].
Qed.

Lemma run_preserves (P : State -> Prop) (p : Props) :
  (forall s, P s -> P (cleanupMedia s)) ->
  (forall rc x s, P s -> zegoRef s = None -> phase s <> Fresh ->
                  P (call_initializeMeeting p rc x s)) ->
  (forall s s', P s -> minor s s' -> P s') ->
  forall events s s', Inv s -> P s -> run p events s = Some s' -> P s'.
Proof.
  intros Hclean Hinit Hminor events.
  induction events as [|e events IH]; intros s s' HI HP Hrun.
  - by injection Hrun as <-.
  - simpl in Hrun. destruct (step p e s) as [s1|] eqn:Hstep; [|done].
    eapply (IH s1 s'); [by eapply Inv_step | | exact Hrun].
    by eapply (step_preserves P p Hclean Hinit Hminor e s s1).
Qed.

(** *** What the projections of the log ignore *)

Lemma notes_ignored l :
  Forall is_note l -> destroyed l = [] /\ tokens l = [] /\ join_calls l = [].
Proof.
  induction 1 as [|e l He _ (IH1 & IH2 & IH3)]; [done|].
  destruct e; try done.
Qed.

Lemma stops_ignored l : Forall is_stop l -> tokens l = [] /\ join_calls l = [].
Proof. induction 1 as [|e l [t ->] _ IH]; [done|]. by simpl. Qed.

Lemma tokens_app l1 l2 : tokens (l1 ++ l2) = tokens l1 ++ tokens l2.
Proof. apply omap_app. Qed.

Lemma join_calls_app l1 l2 : join_calls (l1 ++ l2) = join_calls l1 ++ join_calls l2.
Proof. apply omap_app. Qed.

Lemma minor_projections s s' :
  minor s s' ->
  destroyed (log s') = destroyed (log s) /\ tokens (log s') = tokens (log s) /\
  join_calls (log s') = join_calls (log s).
Proof.
  intros (_ & _ & _ & l & Hl & ->).
  destruct (notes_ignored l Hl) as (H1 & H2 & H3).
  by rewrite destroyed_app, tokens_app, join_calls_app, H1, H2, H3.
Qed.

Lemma cleanupMedia_tokens s : tokens (log (cleanupMedia s)) = tokens (log s).
Proof.
  destruct (cleanupMedia_shape s) as (l & Hl & ->).
  destruct (stops_ignored l Hl) as (H1 & _).
  destruct (zegoRef s); simpl; by rewrite tokens_app, H1.
Qed.

Lemma cleanupMedia_join_calls s : join_calls (log (cleanupMedia s)) = join_calls (log s).
Proof.
  destruct (cleanupMedia_shape s) as (l & Hl & ->).
  destruct (stops_ignored l Hl) as (_ & H2).
  destruct (zegoRef s); simpl; by rewrite join_calls_app, H2.
Qed.

Lemma cleanupMedia_nextWid s : nextWid (cleanupMedia s) = nextWid s.
Proof. by destruct (cleanupMedia_frame s) as (_ & _ & _ & _ & _ & -> & _). Qed.

(** *** The SDK calls of [initializeMeeting] *)

Lemma truthy_str v : truthy v = true -> JString (str_of v) = v /\ str_of v <> [].
Proof. by destruct v as [| |[|c r]]. Qed.

Lemma userName_fallback name n :
  let userName := str_of (js_or name (JString (lit "user" ++ number_to_string n))) in
  userName <> [] /\ (truthy name = true -> JString userName = name) /\
  (truthy name = false -> userName = lit "user" ++ number_to_string n).
Proof.
  unfold js_or. destruct (truthy name) eqn:Hname.
  - destruct (truthy_str name Hname) as (Heq & Hne). by repeat split.
  - cbn [str_of]. by repeat split.
Qed.

(** At most one token is asked for, made from the checked credentials;
    at most one [joinRoom] is made, for the widget just created and with
    the personal link and the retry count of the callback's render. *)
Lemma initializeMeeting_sdk_calls p rc x s :
  let s' := call_initializeMeeting p rc x s in
  (tokens (log s') = tokens (log s) \/
   exists t, tokens (log s') = t :: tokens (log s) /\ token_ok p t /\ tk_userID t = uuid x) /\
  (join_calls (log s') = join_calls (log s) \/
   (join_calls (log s') = (nextWid s, mkJoinConfig (personal_link p) rc) :: join_calls (log s)
    /\ nextWid s' = S (nextWid s) /\ is_mounted s = true)) /\
  (nextWid s <= nextWid s')%nat.
Proof.
  assert (forall appID, parseInt (ZEGO_APP_ID p) = Some appID ->
            truthy (ZEGO_SERVER_SECRET p) = true -> truthy (roomId p) = true ->
            token_ok p (mkKitToken (Some appID) (ZEGO_SERVER_SECRET p)
                          (str_of (roomId p)) (uuid x)
                          (str_of (js_or (fullName p)
                                     (JString (lit "user" ++ number_to_string (date_now x)))))
                          MEETING_DURATION)) as Hok.
  { intros appID HappID Hsecret Hroom.
    destruct (truthy_str _ Hroom) as (? & ?).
    destruct (userName_fallback (fullName p) (date_now x)) as (? & ? & _).
    unfold token_ok; cbn. by rewrite HappID. }
  init_cases p x s; (split; [|split]); eauto 8; try lia;
    try (right; eexists; split; [reflexivity|]; split; [by apply Hok | done]).
Qed.

(** *** No widget is lost *)

Lemma accounted_run p d events s :
  run p events (initial d) = Some s -> accounted s.
Proof.
  apply (run_preserves accounted p); [| | |apply Inv_initial|].
  - intros s0 H0 i Hi. rewrite cleanupMedia_nextWid in Hi.
    rewrite cleanupMedia_destroyed, cleanupMedia_zegoRef.
    destruct (H0 i Hi) as [Hd|Hw].
    + left. destruct (zegoRef s0); [by right | done].
    + destruct (zegoRef s0) as [w|]; [|done]. injection Hw as <-. left. by left.
  - intros rc x s0 H0 Href Hph i Hi.
    destruct (initializeMeeting_frame p rc x s0)
      as (_ & _ & Hd & _ & _ & _ & _ & _ & _ & Hw).
    unfold call_initializeMeeting in *. rewrite Hd.
    destruct Hw as [(Hz & Hn & _) | (t & Hz & Hn & _)]; rewrite Hz; rewrite Hn in Hi.
    + by apply H0.
    + destruct (decide (i = nextWid s0)) as [->|Hne]; [by right|].
      left. destruct (H0 i) as [?|Hheld]; [lia|done|]. by rewrite Href in Hheld.
  - intros s0 s1 H0 Hm i Hi.
    destruct (minor_projections s0 s1 Hm) as (-> & _).
    destruct Hm as (-> & Hn & _). rewrite Hn in Hi. by apply H0.
  - intros i Hi. simpl in Hi. lia.
Qed.

(** *** The widget is released before [initializeMeeting] is entered *)

Lemma notes_silent l : Forall is_note l -> silent l.
Proof.
  induction 1 as [|e l He _ (IH1 & IH2)]; [done|].
  destruct e; try done.
Qed.

Lemma silent_app l1 l2 : silent l1 -> silent l2 -> silent (l1 ++ l2).
Proof.
  intros (A1 & A2) (B1 & B2). unfold silent.
  by rewrite destroyed_app, init_entries_app, A1, A2, B1, B2.
Qed.

(** [initializeMeeting] writes its entry first and calls no [destroy]. *)
Lemma initializeMeeting_log p rc x s :
  exists l, log (call_initializeMeeting p rc x s) = l ++ InitEnter (holds_widget s) :: log s /\
            silent l.
Proof.
  assert (forall (X Y : list Effect) e,
            (exists l, Y = l ++ X /\ silent l) -> destroyed [e] = [] -> init_entries [e] = [] ->
            exists l, e :: Y = l ++ X /\ silent l) as Hcons.
  { intros X Y e (l & -> & Hl) Hd Hi. exists (e :: l). split; [done|].
    by apply (silent_app [e] l). }
  assert (forall X : list Effect, exists l, X = l ++ X /\ silent l) as Hnil.
  { intros X. by exists []. }
  init_cases p x s;
    repeat first [apply Hnil | apply Hcons; [|done|done]].
Qed.

(** [cleanupMedia] logs the [destroy] of the widget held, and no other. *)
Lemma cleanupMedia_log s :
  exists m, log (cleanupMedia s) = m ++ log s /\
            destroyed m = held_ids s /\ init_entries m = [].
Proof.
  destruct (cleanupMedia_shape s) as (l & Hl & ->). unfold held_ids.
  destruct (zegoRef s) as [w|].
  - exists (CallDestroy (wid w) :: l). split; [done|]. simpl.
    by rewrite destroyed_stops, init_entries_stops.
  - exists l. split; [done|]. by rewrite destroyed_stops, init_entries_stops.
Qed.

Lemma retry_callback_released p rc x s s0 :
  minor s s0 -> released_before_entry s (retry_callback p rc x s0).
Proof.
  intros (Hz & _ & _ & n & Hn & Hlog). unfold retry_callback, released_before_entry.
  destruct (initializeMeeting_log p rc x (cleanupMedia s0)) as (l & -> & Hl).
  destruct (cleanupMedia_log s0) as (m & -> & Hd & Hi).
  unfold holds_widget. rewrite cleanupMedia_zegoRef, Hlog.
  exists l, (m ++ n). destruct (notes_silent n Hn) as (Hnd & Hni).
  split; [by rewrite app_assoc|]. split; [done|].
  rewrite destroyed_app, init_entries_app, Hd, Hi, Hnd, Hni, app_nil_r.
  unfold held_ids. by rewrite Hz.
Qed.

Lemma rerender_released p prev x s s0 :
  minor s s0 ->
  rerender p prev x s0 = s0 \/ released_before_entry s (rerender p prev x s0).
Proof.
  intros Hm. unfold rerender.
  destruct (is_mounted s0 && negb (retryCount s0 =? prev)); [|by left].
  right. by apply retry_callback_released.
Qed.

Lemma minor_init_entries s s' : minor s s' -> init_entries (log s') = init_entries (log s).
Proof.
  intros (_ & _ & _ & n & Hn & ->). destruct (notes_silent n Hn) as (_ & Hi).
  by rewrite init_entries_app, Hi.
Qed.

(** Every step either enters [initializeMeeting] not at all, or once and
    after the widget was released. *)
Lemma step_releases_before_entry p e s s' :
  Inv s -> step p e s = Some s' ->
  init_entries (log s') = init_entries (log s) \/ released_before_entry s s'.
Proof.
  intros HI Hstep. unfold step in Hstep.
  assert (dispatch p e s = Some s' ->
          init_entries (log s') = init_entries (log s) \/ released_before_entry s s')
    as Hdispatch.
  { clear Hstep. unfold dispatch. intros Hstep. destruct e; try done.
    - destruct (is_mounted s); [|done]. injection Hstep as <-. left.
      simpl. apply cleanupMedia_init_entries.
    - destruct (0 <=? ms); [|done]. injection Hstep as <-. by left.
    - injection Hstep as <-. by left.
    - destruct (find_config w (callbacks s)) as [cfg|]; [|done]. injection Hstep as <-.
      pose proof (minor_onNetworkStatusError (closure_retryCount cfg) s) as Hm.
      destruct (rerender_released p (retryCount s) x s _ Hm) as [-> | Hr]; [|by right].
      left. by apply minor_init_entries.
    - destruct (find_config w (callbacks s)) as [cfg|]; [|done]. injection Hstep as <-.
      pose proof (minor_onConnectionStateChanged state s) as Hm.
      destruct (rerender_released p (retryCount s) x s _ Hm) as [-> | Hr]; [|by right].
      left. by apply minor_init_entries.
    - destruct (find_config w (callbacks s)) as [cfg|]; [|done]. injection Hstep as <-.
      left. unfold handleLeaveRoom. simpl. apply cleanupMedia_init_entries.
    - destruct (find_config w (callbacks s)) as [cfg|]; [|done]. injection Hstep as <-.
      by left.
    - destruct (timers s !! i) as [t|]; [|done]. simpl in Hstep.
      destruct (due t <=? now s); [|done]. injection Hstep as <-.
      unfold fire. destruct (action t); [|by left].
      right. apply retry_callback_released, minor_cells.
    - destruct (is_mounted s); [|done].
      destruct (render p s) as [|[b|]]; try done. injection Hstep as <-.
      right. apply (retry_callback_released p (retryCount s) x s (setConnectionError JNull s)).
      apply minor_cells. }
  destruct (phase s) eqn:Hphase; [|by apply Hdispatch|by apply Hdispatch|done].
  destruct e; try done. injection Hstep as <-. right. unfold released_before_entry.
  destruct (initializeMeeting_log p (retryCount s) x (set_phase Mounted s)) as (l & -> & Hl).
  destruct HI as (Hfresh & _). specialize (Hfresh Hphase).
  exists l, []. unfold holds_widget, held_ids. simpl. rewrite Hfresh.
  split; [done|]. by split.
Qed.

(** The run of the effect that follows a change of the retry count. *)
Lemma effect_rerun_releases p e s s' :
  phase s = Mounted -> step p e s = Some s' -> retryCount s' <> retryCount s ->
  released_before_entry s s'.
Proof.
  intros Hphase Hstep Hrc. unfold step in Hstep. rewrite Hphase in Hstep.
  unfold dispatch in Hstep. destruct e; try done.
  - destruct (is_mounted s); [|done]. injection Hstep as <-.
    simpl in Hrc. by rewrite cleanupMedia_retryCount in Hrc.
  - destruct (0 <=? ms); [|done]. by injection Hstep as <-.
  - by injection Hstep as <-.
  - destruct (find_config w (callbacks s)) as [cfg|]; [|done]. injection Hstep as <-.
    pose proof (minor_onNetworkStatusError (closure_retryCount cfg) s) as Hm.
    rewrite rerender_retryCount in Hrc. unfold rerender, is_mounted.
    destruct (quiet_onNetworkStatusError (closure_retryCount cfg) s) as (Hp & _).
    rewrite Hp, Hphase. apply Z.eqb_neq in Hrc. rewrite Hrc. simpl.
    by apply retry_callback_released.
  - destruct (find_config w (callbacks s)) as [cfg|]; [|done]. injection Hstep as <-.
    pose proof (minor_onConnectionStateChanged state s) as Hm.
    rewrite rerender_retryCount in Hrc. unfold rerender, is_mounted.
    destruct (quiet_onConnectionStateChanged state s) as (Hp & _).
    rewrite Hp, Hphase. apply Z.eqb_neq in Hrc. rewrite Hrc. simpl.
    by apply retry_callback_released.
  - destruct (find_config w (callbacks s)) as [cfg|]; [|done]. injection Hstep as <-.
    unfold handleLeaveRoom in Hrc. simpl in Hrc. by rewrite cleanupMedia_retryCount in Hrc.
  - destruct (find_config w (callbacks s)) as [cfg|]; [|done]. by injection Hstep as <-.
  - destruct (timers s !! i) as [t|]; [|done]. simpl in Hstep.
    destruct (due t <=? now s); [|done]. injection Hstep as <-.
    unfold fire. unfold fire in Hrc. destruct (action t); [|done].
    apply retry_callback_released, minor_cells.
  - destruct (is_mounted s); [|done].
    destruct (render p s) as [|[b|]]; try done. injection Hstep as <-.
    apply (retry_callback_released p (retryCount s) x s (setConnectionError JNull s)).
    apply minor_cells.
Qed.

(** C7. In every run of the page, [initializeMeeting] is never entered
    while a widget is held, and no widget is lost on the way: each widget
    created is the one held or was destroyed. From every state of a run,
    a step enters [initializeMeeting] at most once, and then only after
    [cleanupMedia]: the [destroy] of the widget held is logged before the
    entry, which finds the reference null. This is so for the retry timer,
    for the Retry button and for the run of the effect that follows a
    change of the retry count; unmounting destroys the widget held and
    leaves the reference null. *)
Theorem initializeMeeting_never_starts_holding_a_widget
    (p : Props) (d : Dom) (events : list Event) (s : State) :
  run p events (initial d) = Some s ->
  (forall held, InitEnter held ∈ log s -> held = false) /\
  (forall i, (i < nextWid s)%nat ->
             i ∈ destroyed (log s) \/ wid <$> zegoRef s = Some i) /\
  (forall e s', step p e s = Some s' ->
     init_entries (log s') = init_entries (log s) \/ released_before_entry s s') /\
  (forall i x t rc s',
     timers s !! i = Some t -> action t = RetryInit rc ->
     step p (ETimer i x) s = Some s' -> released_before_entry s s') /\
  (forall x s', step p (EClickRetry x) s = Some s' -> released_before_entry s s') /\
  (forall e s',
     phase s = Mounted -> step p e s = Some s' -> retryCount s' <> retryCount s ->
     released_before_entry s s') /\
  (forall s', step p EUnmount s = Some s' ->
     zegoRef s' = None /\ destroyed (log s') = held_ids s ++ destroyed (log s)).
Proof.
  intros Hrun.
  pose proof (Inv_run p events (initial d) s (Inv_initial d) Hrun) as HI.
  split; [|split; [|split; [|split; [|split; [|split]]]]].
  - intros held Hin. apply elem_of_init_entries in Hin.
    destruct HI as (_ & Hall & _).
    eapply Forall_forall in Hall; [|exact Hin]. done.
  - by apply (accounted_run p d events s Hrun).
  - intros e s'. by apply step_releases_before_entry.
  - intros i x t rc s' Ht Ha Hstep. unfold step in Hstep.
    assert (dispatch p (ETimer i x) s = Some s' -> released_before_entry s s') as Hd.
    { unfold dispatch. rewrite Ht. cbn [mbind option_bind].
      destruct (due t <=? now s); [|done]. intros [= <-].
      unfold fire. rewrite Ha. apply retry_callback_released, minor_cells. }
    destruct (phase s); try done; by apply Hd.
  - intros x s' Hstep. unfold step in Hstep.
    assert (dispatch p (EClickRetry x) s = Some s' -> released_before_entry s s') as Hd.
    { unfold dispatch. destruct (is_mounted s); [|done].
      destruct (render p s) as [|[b|]]; try done. intros [= <-].
      apply (retry_callback_released p (retryCount s) x s (setConnectionError JNull s)).
      apply minor_cells. }
    destruct (phase s); try done; by apply Hd.
  - intros e s'. apply effect_rerun_releases.
  - intros s' Hstep. unfold step, dispatch in Hstep.
    destruct (phase s); try done;
      (destruct (is_mounted s); [|done]); injection Hstep as <-;
      (split; [apply cleanupMedia_zegoRef|]); simpl;
      rewrite cleanupMedia_destroyed; unfold held_ids; by destruct (zegoRef s).
Qed.

Lemma initializeMeeting_never_starts_holding_a_widget_witness :
  exists s0 s s',
    run sample_props [EMount sdk_join_fails] (initial no_media) = Some s0 /\
    step sample_props (EClickRetry sdk_ok) s0 = Some s /\
    released_before_entry s0 s /\ held_ids s0 = [0%nat] /\
    step sample_props EUnmount s = Some s' /\
    zegoRef s' = None /\ destroyed (log s') = [1; 0]%nat /\
    (forall held, InitEnter held ∈ log s -> held = false).
Proof.
  destruct (run sample_props [EMount sdk_join_fails] (initial no_media))
    as [s0|] eqn:Hrun0; [|vm_compute in Hrun0; discriminate Hrun0].
  destruct (step sample_props (EClickRetry sdk_ok) s0) as [s|] eqn:Hstep;
    [|vm_compute in Hrun0; injection Hrun0 as <-; vm_compute in Hstep; discriminate Hstep].
  assert (run sample_props [EMount sdk_join_fails; EClickRetry sdk_ok] (initial no_media)
          = Some s) as Hrun.
  { change (run sample_props [EMount sdk_join_fails; EClickRetry sdk_ok] (initial no_media))
      with (run sample_props [EMount sdk_join_fails] (initial no_media)
              ≫= run sample_props [EClickRetry sdk_ok]).
    rewrite Hrun0. cbn [mbind option_bind run]. by rewrite Hstep. }
  destruct (initializeMeeting_never_starts_holding_a_widget
              sample_props no_media _ s0 Hrun0) as (_ & _ & _ & _ & Hclick & _).
  destruct (initializeMeeting_never_starts_holding_a_widget
              sample_props no_media _ s Hrun) as (Hnull & _ & _ & _ & _ & _ & Hunmount).
  destruct (step sample_props EUnmount s) as [s'|] eqn:Hun;
    [|vm_compute in Hrun; injection Hrun as <-; vm_compute in Hun; discriminate Hun].
  exists s0, s, s'. split; [reflexivity|]. split; [exact Hstep|].
  split; [exact (Hclick sdk_ok s Hstep)|].
  split; [vm_compute in Hrun0; by injection Hrun0 as <-|].
  split; [exact Hun|].
  destruct (Hunmount s' eq_refl) as (Hz & Hd).
  split; [exact Hz|]. split; [|exact Hnull].
  rewrite Hd. vm_compute in Hrun. by injection Hrun as <-.
Defined.

End RoomFacts.

(** * Further properties of the two pages *)

(** ** The room page *)

Module Coverage.
Import Room RoomLog RoomFacts.

(** *** [cleanupMedia] and the media tracks *)

Lemma stop_all_fields tracks s :
  log (stop_all tracks s) = rev (TrackStop <$> tracks) ++ log s /\
  dom (stop_all tracks s) = dom s /\ zegoRef (stop_all tracks s) = zegoRef s.
Proof.
  unfold stop_all. revert s. induction tracks as [|t tracks IH]; intros s; [done|].
  simpl. destruct (IH (emit (TrackStop t) s)) as (-> & -> & ->).
  simpl. by rewrite <- app_assoc.
Qed.

Lemma stop_streams_fields (streams : list (option (list nat))) s :
  let s' := foldl (fun s track =>
                     match track with
                     | Some mediaStream => stop_all mediaStream s
                     | None => s
                     end) s streams in
  log s' = rev (TrackStop <$> concat (default [] <$> streams)) ++ log s /\
  zegoRef s' = zegoRef s.
Proof.
  revert s. induction streams as [|[ts|] streams IH]; intros s; simpl; [done| |apply IH].
  destruct (IH (stop_all ts s)) as (-> & ->).
  destruct (stop_all_fields ts s) as (-> & _ & ->).
  split; [|done]. by rewrite fmap_app, rev_app_distr, <- app_assoc.
Qed.

Lemma track_stops_app l1 l2 : track_stops (l1 ++ l2) = track_stops l1 ++ track_stops l2.
Proof. apply omap_app. Qed.

Lemma track_stops_rev_fmap tracks : track_stops (rev (TrackStop <$> tracks)) = rev tracks.
Proof.
  induction tracks as [|t tracks IH]; [done|].
  cbn [fmap list_fmap rev]. by rewrite track_stops_app, IH.
Qed.

(** X1. [cleanupMedia] calls [stop] on every track of
    [mediaDevices.getTracks()] (when there is such a method) and of the
    stream of every video and audio element that has one, once per
    occurrence and in document order, and on no other track. *)
Theorem cleanupMedia_stops_every_track (s : State) :
  track_stops (log (cleanupMedia s))
  = rev (all_tracks (dom s)) ++ track_stops (log s).
Proof.
  unfold cleanupMedia, all_tracks.
  set (s1 := match mediaDevices_getTracks (dom s) with
             | Some tracks => stop_all tracks s
             | None => s
             end).
  assert (log s1 = rev (TrackStop <$> default [] (mediaDevices_getTracks (dom s))) ++ log s
          /\ dom s1 = dom s) as (Hl1 & Hd1).
  { unfold s1. destruct (mediaDevices_getTracks (dom s)) as [ts|]; [|done].
    by destruct (stop_all_fields ts s) as (-> & -> & _). }
  rewrite Hd1.
  destruct (stop_streams_fields (videos (dom s) ++ audios (dom s)) s1) as (Hl2 & _).
  cbn zeta in Hl2.
  set (s2 := foldl _ s1 _) in *.
  assert (track_stops (log s2)
          = rev (default [] (mediaDevices_getTracks (dom s))
                 ++ concat (default [] <$> (videos (dom s) ++ audios (dom s))))
            ++ track_stops (log s)) as Hs2.
  { rewrite Hl2, Hl1, !track_stops_app, !track_stops_rev_fmap, rev_app_distr.
    by rewrite <- app_assoc. }
  by destruct (zegoRef s2).
Qed.

(** *** Tokens and joins *)

Lemma tokens_ok_run p d events s :
  run p events (initial d) = Some s -> Forall (token_ok p) (tokens (log s)).
Proof.
  apply (run_preserves (fun s => Forall (token_ok p) (tokens (log s))) p);
    [| | |apply Inv_initial|by constructor].
  - intros s0 H0. by rewrite cleanupMedia_tokens.
  - intros rc x s0 H0 _ _.
    destruct (initializeMeeting_sdk_calls p rc x s0) as ([->|(t & -> & Hok & _)] & _);
      [done | by constructor].
  - intros s0 s1 H0 Hm. by destruct (minor_projections s0 s1 Hm) as (_ & -> & _).
Qed.

(** X2. In every run of the page, each token asked of
    [generateKitTokenForTest] was made from an application identifier that
    [parseInt] accepted, a non-empty server secret, the room identifier of
    the page, a validity of 18000 seconds and a non-empty user name, which
    is the display name whenever that is not empty. *)
Theorem every_token_from_checked_credentials
    (p : Props) (d : Dom) (events : list Event) (s : State) (t : KitToken) :
  run p events (initial d) = Some s ->
  CallGenerateKitToken t ∈ log s ->
  token_ok p t.
Proof.
  intros Hrun Hin.
  pose proof (tokens_ok_run p d events s Hrun) as Hall.
  eapply Forall_forall in Hall; [exact Hall|].
  unfold tokens. apply list_elem_of_omap. by exists (CallGenerateKitToken t).
Qed.

Lemma joined_once_run p d events s :
  run p events (initial d) = Some s -> joined_once p s.
Proof.
  apply (run_preserves (joined_once p) p); [| | |apply Inv_initial|].
  - intros s0 H0. unfold joined_once.
    by rewrite cleanupMedia_join_calls, cleanupMedia_nextWid.
  - intros rc x s0 (Hall & Hnd) _ _.
    destruct (initializeMeeting_sdk_calls p rc x s0) as (_ & Hj & Hle).
    unfold joined_once. destruct Hj as [->|(-> & Hn & _)].
    + split; [|done]. eapply Forall_impl; [exact Hall|]. intros wc [? ?]. split; [lia|done].
    + split.
      * constructor; [simpl; split; [lia|done]|].
        eapply Forall_impl; [exact Hall|]. intros wc [? ?]. split; [lia|done].
      * cbn [fmap list_fmap fst]. constructor; [|done].
        intros Hin. apply list_elem_of_fmap in Hin as (wc & Heq & Hin).
        eapply Forall_forall in Hall; [|exact Hin]. simpl in Heq. lia.
  - intros s0 s1 H0 Hm. unfold joined_once.
    destruct (minor_projections s0 s1 Hm) as (_ & _ & ->).
    destruct Hm as (_ & -> & _). done.
  - split; constructor.
Qed.

(** X3. In every run of the page, [joinRoom] is called at most once on a
    widget, and each call carries as personal link the page's protocol and
    host followed by "/room/" and the room identifier. *)
Theorem joinRoom_once_with_personal_link
    (p : Props) (d : Dom) (events : list Event) (s : State) :
  run p events (initial d) = Some s ->
  NoDup (join_calls (log s)).*1 /\
  (forall w cfg, CallJoinRoom w cfg ∈ log s ->
                 sharedLink_url cfg
                 = location_protocol p ++ lit "//" ++ location_host p
                     ++ lit "/room/" ++ str_of (roomId p)).
Proof.
  intros Hrun. destruct (joined_once_run p d events s Hrun) as (Hall & Hnd).
  split; [done|]. intros w cfg Hin.
  assert ((w, cfg) ∈ join_calls (log s)) as Hin'.
  { unfold join_calls. apply list_elem_of_omap. by exists (CallJoinRoom w cfg). }
  eapply Forall_forall in Hall; [|exact Hin']. apply Hall.
Qed.

Lemma every_token_from_checked_credentials_witness :
  exists s t, run sample_props [EMount sdk_ok] (initial no_media) = Some s /\
              tk_userName t = lit "Ann" /\ token_ok sample_props t.
Proof.
  destruct (run sample_props [EMount sdk_ok] (initial no_media)) as [s|] eqn:Hrun;
    [|vm_compute in Hrun; discriminate Hrun].
  exists s, (mkKitToken (Some 12345) (JString (lit "secret")) (lit "abc") (lit "u-1")
               (lit "Ann") 18000).
  split; [reflexivity|]. split; [reflexivity|].
  apply (every_token_from_checked_credentials sample_props no_media [EMount sdk_ok] s _ Hrun).
  vm_compute in Hrun. injection Hrun as <-.
  apply list_elem_of_In. vm_compute. repeat first [left; reflexivity | right].
Defined.

Lemma joinRoom_once_with_personal_link_witness :
  exists s, run sample_props sample_run (initial no_media) = Some s /\
            NoDup (join_calls (log s)).*1 /\ (join_calls (log s)).*1 = [3; 2; 1; 0]%nat.
Proof.
  destruct (run sample_props sample_run (initial no_media)) as [s|] eqn:Hrun;
    [|vm_compute in Hrun; discriminate Hrun].
  exists s. split; [reflexivity|]. split.
  - exact (proj1 (joinRoom_once_with_personal_link sample_props no_media sample_run s Hrun)).
  - vm_compute in Hrun. injection Hrun as <-. reflexivity.
Defined.

(** *** The retry counter and the retries *)

Lemma retry_budget_step p e s s' :
  0 <= retryCount s <= Z.of_nat (retries_scheduled (log s)) ->
  step p e s = Some s' ->
  0 <= retryCount s' <= Z.of_nat (retries_scheduled (log s')).
Proof.
  intros Hs Hstep. unfold step in Hstep.
  assert (forall rc x s0, retryCount (retry_callback p rc x s0) = retryCount s0 /\
            retries_scheduled (log (retry_callback p rc x s0)) = retries_scheduled (log s0))
    as Hretry.
  { intros rc x s0. unfold retry_callback.
    rewrite call_initializeMeeting_retryCount, cleanupMedia_retryCount.
    unfold call_initializeMeeting.
    destruct (initializeMeeting_frame p rc x (cleanupMedia s0)) as (_ & _ & _ & -> & _).
    by rewrite cleanupMedia_retries. }
  assert (forall prev x s0, retryCount (rerender p prev x s0) = retryCount s0 /\
            retries_scheduled (log (rerender p prev x s0)) = retries_scheduled (log s0))
    as Hrerender.
  { intros prev x s0. unfold rerender.
    destruct (is_mounted s0 && negb (retryCount s0 =? prev)); [apply Hretry | done]. }
  assert (dispatch p e s = Some s' ->
          0 <= retryCount s' <= Z.of_nat (retries_scheduled (log s'))) as Hdispatch.
  { clear Hstep. unfold dispatch. intros Hstep. destruct e; try done.
    - destruct (is_mounted s); [|done]. injection Hstep as <-. simpl.
      by rewrite cleanupMedia_retryCount, cleanupMedia_retries.
    - destruct (0 <=? ms); [|done]. by injection Hstep as <-.
    - by injection Hstep as <-.
    - destruct (find_config w (callbacks s)) as [cfg|]; [|done].
      injection Hstep as <-.
      destruct (Hrerender (retryCount s) x
                  (onNetworkStatusError (closure_retryCount cfg) s)) as (-> & ->).
      unfold onNetworkStatusError.
      destruct (closure_retryCount cfg <? MAX_RETRIES); simpl; unfold retries_scheduled in *;
        simpl; lia.
    - destruct (find_config w (callbacks s)) as [cfg|]; [|done].
      injection Hstep as <-.
      destruct (Hrerender (retryCount s) x (onConnectionStateChanged state s)) as (-> & ->).
      unfold onConnectionStateChanged. case_bool_decide; simpl; lia.
    - destruct (find_config w (callbacks s)) as [cfg|]; [|done].
      injection Hstep as <-. unfold handleLeaveRoom, retries_scheduled. simpl.
      fold (retries_scheduled (log (cleanupMedia s))).
      by rewrite cleanupMedia_retryCount, cleanupMedia_retries.
    - destruct (find_config w (callbacks s)) as [cfg|]; [|done].
      by injection Hstep as <-.
    - destruct (timers s !! i) as [t|]; [|done]. simpl in Hstep.
      destruct (due t <=? now s); [|done]. injection Hstep as <-.
      unfold fire. destruct (action t); [|done].
      by destruct (Hretry closure_rc x (set_timers (delete i (timers s)) s)) as (-> & ->).
    - destruct (is_mounted s); [|done].
      destruct (render p s) as [|[b|]]; try done. injection Hstep as <-.
      change (onClickRetry p (retryCount s) x s)
        with (retry_callback p (retryCount s) x (setConnectionError JNull s)).
      by destruct (Hretry (retryCount s) x (setConnectionError JNull s)) as (-> & ->). }
  destruct (phase s); [|by apply Hdispatch|by apply Hdispatch|done].
  destruct e; try done. injection Hstep as <-.
  rewrite call_initializeMeeting_retryCount. unfold call_initializeMeeting.
  by destruct (initializeMeeting_frame p (retryCount s) x (set_phase Mounted s))
    as (_ & _ & _ & -> & _).
Qed.

(** X4. In every run of the page the retry counter is never negative and
    never larger than the number of automatic retries scheduled so far:
    it only grows together with a [setTimeout] of a retry. *)
Theorem retryCount_within_retries_scheduled
    (p : Props) (d : Dom) (events : list Event) (s : State) :
  run p events (initial d) = Some s ->
  0 <= retryCount s <= Z.of_nat (retries_scheduled (log s)).
Proof.
  assert (forall s0, 0 <= retryCount s0 <= Z.of_nat (retries_scheduled (log s0)) ->
                     run p events s0 = Some s ->
                     0 <= retryCount s <= Z.of_nat (retries_scheduled (log s))) as H.
  { induction events as [|e events IH]; intros s0 H0 Hrun.
    - by injection Hrun as <-.
    - simpl in Hrun. destruct (step p e s0) as [s1|] eqn:Hstep; [|done].
      apply (IH s1); [|done]. by eapply retry_budget_step. }
  apply H. simpl. lia.
Qed.

Lemma retryCount_within_retries_scheduled_witness :
  exists s, run sample_props stale_closure_run (initial no_media) = Some s /\
            0 <= retryCount s <= Z.of_nat (retries_scheduled (log s)).
Proof.
  destruct (run sample_props stale_closure_run (initial no_media)) as [s|] eqn:Hrun;
    [|vm_compute in Hrun; discriminate Hrun].
  exists s. split; [reflexivity|].
  exact (retryCount_within_retries_scheduled sample_props no_media stale_closure_run s Hrun).
Defined.

(** *** Single events *)

Lemma step_dispatch p e s :
  phase s = Mounted \/ phase s = Unmounted -> step p e s = dispatch p e s.
Proof. unfold step. by intros [-> | ->]. Qed.

Lemma cleanupMedia_timers s : timers (cleanupMedia s) = timers s.
Proof. by destruct (cleanupMedia_frame s) as (_ & _ & _ & -> & _). Qed.

Lemma cleanupMedia_now s : now (cleanupMedia s) = now s.
Proof. by destruct (cleanupMedia_frame s) as (_ & _ & _ & _ & -> & _). Qed.

Lemma cleanupMedia_callbacks s : callbacks (cleanupMedia s) = callbacks s.
Proof. by destruct (cleanupMedia_frame s) as (_ & _ & _ & _ & _ & _ & -> & _). Qed.

Lemma cleanupMedia_connectionError s : connectionError (cleanupMedia s) = connectionError s.
Proof. by destruct (cleanupMedia_frame s) as (_ & -> & _). Qed.

Lemma retry_callback_log p rc x s :
  init_entries (log (retry_callback p rc x s)) = false :: init_entries (log s) /\
  destroyed (log (retry_callback p rc x s))
  = match zegoRef s with Some w => wid w :: destroyed (log s) | None => destroyed (log s) end.
Proof.
  split; [apply retry_callback_enters_empty|].
  unfold retry_callback, call_initializeMeeting.
  destruct (initializeMeeting_frame p rc x (cleanupMedia s)) as (_ & _ & -> & _).
  apply cleanupMedia_destroyed.
Qed.



(** X6. A connection-state callback reporting "CONNECTED" sets the retry
    counter to 0. When the counter was 0 already, nothing else happens but
    the connection error being cleared; when it was not, the effect runs
    again, so the widget held (the one that has just connected) is
    destroyed and [initializeMeeting] starts afresh. *)
Theorem connected_resets_counter_and_restarts
    (p : Props) (w : nat) (x : InitEnv) (s : State) :
  phase s = Mounted ->
  is_Some (find_config w (callbacks s)) ->
  exists s',
    step p (EConnectionStateChanged w (lit "CONNECTED") x) s = Some s' /\
    retryCount s' = 0 /\
    (retryCount s = 0 -> s' = set_retryCount 0 (set_connectionError JNull s)) /\
    (retryCount s <> 0 ->
       init_entries (log s') = false :: init_entries (log s) /\
       destroyed (log s')
       = match zegoRef s with
         | Some held => wid held :: destroyed (log s)
         | None => destroyed (log s)
         end).
Proof.
  intros Hphase [cfg Hcfg]. rewrite step_dispatch by auto. unfold dispatch.
  rewrite Hcfg. cbn [mbind option_bind]. eexists. split; [reflexivity|].
  unfold onConnectionStateChanged. rewrite bool_decide_eq_true_2 by done.
  rewrite rerender_retryCount. split; [done|].
  unfold rerender, is_mounted. cbn [phase setRetryCount setConnectionError
    set_retryCount set_connectionError retryCount]. rewrite Hphase. cbn [andb].
  split.
  - intros ->. done.
  - intros Hne.
    replace (0 =? retryCount s) with false by (symmetry; apply Z.eqb_neq; lia).
    cbn [negb].
    apply (retry_callback_log p 0 x (set_retryCount 0 (set_connectionError JNull s))).
Qed.

Lemma connected_resets_counter_and_restarts_witness :
  exists s s',
    run sample_props [EMount sdk_ok; ENetworkStatusError 0 sdk_ok] (initial no_media) = Some s /\
    step sample_props (EConnectionStateChanged 1 (lit "CONNECTED") sdk_ok) s = Some s' /\
    retryCount s = 1 /\ retryCount s' = 0 /\ destroyed (log s') = [1; 0]%nat.
Proof.
  destruct (run sample_props [EMount sdk_ok; ENetworkStatusError 0 sdk_ok] (initial no_media))
    as [s|] eqn:Hrun; [|vm_compute in Hrun; discriminate Hrun].
  assert (phase s = Mounted /\ is_Some (find_config 1 (callbacks s)) /\ retryCount s = 1 /\
          (wid <$> zegoRef s) = Some 1%nat /\ destroyed (log s) = [0%nat])
    as (Hp & Hc & Hr & Hz & Hd).
  { vm_compute in Hrun. injection Hrun as <-. repeat split. by eexists. }
  destruct (connected_resets_counter_and_restarts sample_props 1 sdk_ok s Hp Hc)
    as (s' & Hstep & H0 & _ & Hre).
  exists s, s'. repeat split; try done.
  destruct Hre as (_ & ->); [lia|].
  destruct (zegoRef s) as [held|]; [|done]. injection Hz as ->. by rewrite Hd.
Defined.

Lemma retry_callback_joins_frame p rc x s :
  retryCount (retry_callback p rc x s) = retryCount s /\
  timers (retry_callback p rc x s) = timers s.
Proof.
  unfold retry_callback, call_initializeMeeting.
  destruct (initializeMeeting_frame p rc x (cleanupMedia s))
    as (_ & _ & _ & _ & -> & -> & _).
  by rewrite cleanupMedia_retryCount, cleanupMedia_timers.
Qed.

(** X7. A network error reported to a widget whose callback was created in
    a render with [retryCount] at or above [MAX_RETRIES] ends with the
    message "Maximum retry attempts reached. Please check your network.":
    no timer is scheduled, the counter and the widget stay as they are, no
    SDK call is made, and the banner shows that message. *)
Theorem network_error_at_limit_gives_up
    (p : Props) (w : nat) (cfg : JoinConfig) (x : InitEnv) (s : State) :
  phase s = Mounted ->
  find_config w (callbacks s) = Some cfg ->
  MAX_RETRIES <= closure_retryCount cfg ->
  let message := lit "Maximum retry attempts reached. Please check your network." in
  step p (ENetworkStatusError w x) s
  = Some (set_connectionError (JString message) (console_error (lit "Network error:") s)) /\
  (truthy (roomId p) = true ->
   forall s', step p (ENetworkStatusError w x) s = Some s' ->
              render p s' = MeetingView (Some message) /\
              timers s' = timers s /\ zegoRef s' = zegoRef s /\
              retryCount s' = retryCount s /\ sdk_calls (log s') = sdk_calls (log s)).
Proof.
  intros Hphase Hcfg Hlimit message.
  assert (step p (ENetworkStatusError w x) s
          = Some (set_connectionError (JString message)
                    (console_error (lit "Network error:") s))) as Hstep.
  { rewrite step_dispatch by auto. unfold dispatch. rewrite Hcfg. cbn [mbind option_bind].
    unfold onNetworkStatusError. apply Z.ltb_ge in Hlimit. rewrite Hlimit.
    unfold rerender. cbn [retryCount setConnectionError set_connectionError console_error emit].
    by rewrite Z.eqb_refl, andb_false_r. }
  split; [exact Hstep|].
  intros Hroom s' Hs'. rewrite Hstep in Hs'. injection Hs' as <-.
  unfold render. rewrite Hroom. by repeat split.
Qed.

Lemma network_error_at_limit_gives_up_witness :
  exists s s',
    run sample_props
      [EMount sdk_ok; ENetworkStatusError 0 sdk_ok; ENetworkStatusError 1 sdk_ok;
       ENetworkStatusError 2 sdk_ok] (initial no_media) = Some s /\
    step sample_props (ENetworkStatusError 3 sdk_ok) s = Some s' /\
    retryCount s' = 3 /\ length (timers s') = 3%nat /\
    render sample_props s'
    = MeetingView (Some (lit "Maximum retry attempts reached. Please check your network.")).
Proof.
  destruct (run sample_props
              [EMount sdk_ok; ENetworkStatusError 0 sdk_ok; ENetworkStatusError 1 sdk_ok;
               ENetworkStatusError 2 sdk_ok] (initial no_media))
    as [s|] eqn:Hrun; [|vm_compute in Hrun; discriminate Hrun].
  assert (phase s = Mounted /\
          find_config 3 (callbacks s)
          = Some (mkJoinConfig (personal_link sample_props) 3) /\
          retryCount s = 3 /\ length (timers s) = 3%nat) as (Hp & Hc & Hr & Hl).
  { vm_compute in Hrun. injection Hrun as <-. by repeat split. }
  destruct (network_error_at_limit_gives_up sample_props 3 _ sdk_ok s Hp Hc)
    as (Hstep & Hafter); [done|].
  eexists s, _. split; [reflexivity|]. split; [exact Hstep|].
  destruct (Hafter eq_refl _ Hstep) as (Hview & Ht & _ & Hrc & _).
  rewrite Hrc, Ht. by repeat split.
Defined.

(** X8. A network error reported to a widget whose callback was created in
    a render with [retryCount] below [MAX_RETRIES], on a mounted page:
    the counter grows by one, a retry is scheduled [RETRY_DELAY] (5000 ms)
    from now for the [initializeMeeting] of that same render, and, the
    counter having changed, the effect runs again at once: the widget held
    is destroyed and [initializeMeeting] is entered without waiting. *)
Theorem network_error_below_limit_retries_twice
    (p : Props) (w : nat) (cfg : JoinConfig) (x : InitEnv) (s : State) :
  phase s = Mounted ->
  find_config w (callbacks s) = Some cfg ->
  closure_retryCount cfg < MAX_RETRIES ->
  exists s',
    step p (ENetworkStatusError w x) s = Some s' /\
    retryCount s' = retryCount s + 1 /\
    timers s' = timers s ++ [mkTimer (now s + RETRY_DELAY) (RetryInit (closure_retryCount cfg))] /\
    init_entries (log s') = false :: init_entries (log s) /\
    destroyed (log s')
    = match zegoRef s with
      | Some held => wid held :: destroyed (log s)
      | None => destroyed (log s)
      end.
Proof.
  intros Hphase Hcfg Hlimit.
  rewrite step_dispatch by auto. unfold dispatch. rewrite Hcfg. cbn [mbind option_bind].
  eexists. split; [reflexivity|].
  set (s1 := onNetworkStatusError (closure_retryCount cfg) s).
  destruct (onNetworkStatusError_below_limit (closure_retryCount cfg) s Hlimit)
    as (_ & Hc1 & Ht1 & _). fold s1 in Hc1, Ht1.
  destruct (quiet_onNetworkStatusError (closure_retryCount cfg) s)
    as (Hp1 & Hz1 & _ & Hd1 & Hi1). fold s1 in Hp1, Hz1, Hd1, Hi1.
  assert (rerender p (retryCount s) x s1 = retry_callback p (retryCount s1) x s1) as ->.
  { unfold rerender, is_mounted. rewrite Hp1, Hphase, Hc1.
    by replace (retryCount s + 1 =? retryCount s) with false
      by (symmetry; apply Z.eqb_neq; lia). }
  destruct (retry_callback_log p (retryCount s1) x s1) as (-> & ->).
  destruct (retry_callback_joins_frame p (retryCount s1) x s1) as (-> & ->).
  by rewrite Hc1, Ht1, Hz1, Hd1, Hi1.
Qed.

Lemma network_error_below_limit_retries_twice_witness :
  exists s s',
    run sample_props [EMount sdk_ok] (initial no_media) = Some s /\
    step sample_props (ENetworkStatusError 0 sdk_ok) s = Some s' /\
    retryCount s' = 1 /\ timers s' = [mkTimer 5000 (RetryInit 0)] /\
    destroyed (log s') = [0%nat].
Proof.
  destruct (run sample_props [EMount sdk_ok] (initial no_media))
    as [s|] eqn:Hrun; [|vm_compute in Hrun; discriminate Hrun].
  assert (phase s = Mounted /\
          find_config 0 (callbacks s)
          = Some (mkJoinConfig (personal_link sample_props) 0) /\
          retryCount s = 0 /\ timers s = [] /\ now s = 0 /\
          (wid <$> zegoRef s) = Some 0%nat /\ destroyed (log s) = []) 
    as (Hp & Hc & Hr & Ht & Hn & Hz & Hd).
  { vm_compute in Hrun. injection Hrun as <-. by repeat split. }
  destruct (network_error_below_limit_retries_twice sample_props 0 _ sdk_ok s Hp Hc)
    as (s' & Hstep & Hrc & Htm & _ & Hdes); [done|].
  exists s, s'. split; [reflexivity|]. split; [exact Hstep|].
  rewrite Hrc, Htm, Hdes, Hr, Ht, Hn, Hd.
  destruct (zegoRef s) as [held|]; [|done]. injection Hz as ->. by repeat split.
Defined.

(** X9. A device error reported by the SDK on a mounted page with a room
    identifier shows the banner with "Device error: " followed by the
    SDK's message, whatever that message is; the widget, the timers and
    the retry counter stay as they are, and the Retry button can be
    pressed. *)
Theorem device_error_shows_banner
    (p : Props) (w : nat) (message : jsstring) (x : InitEnv) (s : State) :
  phase s = Mounted ->
  truthy (roomId p) = true ->
  is_Some (find_config w (callbacks s)) ->
  exists s',
    step p (EDeviceError w message) s = Some s' /\
    render p s' = MeetingView (Some (lit "Device error: " ++ message)) /\
    zegoRef s' = zegoRef s /\ timers s' = timers s /\ retryCount s' = retryCount s /\
    is_Some (step p (EClickRetry x) s').
Proof.
  intros Hphase Hroom [cfg Hcfg].
  rewrite step_dispatch by auto. unfold dispatch. rewrite Hcfg. cbn [mbind option_bind].
  eexists. split; [reflexivity|].
  assert (truthy (JString (lit "Device error: " ++ message)) = true) as Htruthy.
  { change (lit "Device error: ") with (68%N :: lit "evice error: "). done. }
  assert (render p (onDeviceError message s)
          = MeetingView (Some (lit "Device error: " ++ message))) as Hview.
  { unfold render, onDeviceError. rewrite Hroom.
    cbn [negb connectionError setConnectionError set_connectionError].
    by rewrite Htruthy. }
  repeat split; try done.
  rewrite step_dispatch by (left; exact Hphase). unfold dispatch, is_mounted.
  cbn [phase onDeviceError setConnectionError set_connectionError console_error emit].
  rewrite Hphase. fold (console_error (lit "Device error:") s).
  change (set_connectionError (JString (lit "Device error: " ++ message))
            (console_error (lit "Device error:") s)) with (onDeviceError message s).
  by rewrite Hview.
Qed.

Lemma device_error_shows_banner_witness :
  exists s s',
    run sample_props [EMount sdk_ok] (initial no_media) = Some s /\
    step sample_props (EDeviceError 0 []) s = Some s' /\
    render sample_props s' = MeetingView (Some (lit "Device error: ")).
Proof.
  destruct (run sample_props [EMount sdk_ok] (initial no_media))
    as [s|] eqn:Hrun; [|vm_compute in Hrun; discriminate Hrun].
  assert (phase s = Mounted /\ is_Some (find_config 0 (callbacks s))) as (Hp & Hc).
  { vm_compute in Hrun. injection Hrun as <-. split; [done | by eexists]. }
  destruct (device_error_shows_banner sample_props 0 [] sdk_ok s Hp eq_refl Hc)
    as (s' & Hstep & Hview & _).
  exists s, s'. by repeat split.
Defined.

(** What a run of [initializeMeeting] that reaches [joinRoom] and returns
    leaves behind, on a mounted page. *)
Lemma initializeMeeting_joined p rc x s :
  joins p x -> phase s = Mounted ->
  let s' := call_initializeMeeting p rc x s in
  connectionError s' = connectionError s /\
  (exists tk, zegoRef s' = Some (mkWidget (nextWid s) tk)) /\
  callbacks s' = (nextWid s, mkJoinConfig (personal_link p) rc) :: callbacks s.
Proof.
  intros (Hroom & [appID HappID] & Hsecret & Hsdk) Hphase. run_act.
  unfold container_attached, is_mounted.
  rewrite Hroom, HappID. cbn. rewrite Hsecret, Hsdk. cbn. rewrite Hphase. cbn.
  repeat split; eauto.
Qed.

(** What it leaves behind on a page that was unmounted: a widget that
    never joins. *)
Lemma initializeMeeting_unmounted p rc x s :
  joins p x -> phase s = Unmounted ->
  let s' := call_initializeMeeting p rc x s in
  (exists tk, zegoRef s' = Some (mkWidget (nextWid s) tk)) /\
  callbacks s' = callbacks s /\ join_calls (log s') = join_calls (log s) /\
  length (tokens (log s')) = S (length (tokens (log s))) /\ phase s' = Unmounted.
Proof.
  intros (Hroom & [appID HappID] & Hsecret & Hsdk) Hphase. run_act.
  unfold container_attached, is_mounted.
  rewrite Hroom, HappID. cbn. rewrite Hsecret, Hsdk. cbn. rewrite Hphase. cbn.
  repeat split; eauto.
Qed.

(** X10. Unmounting cancels no timer: a retry timer that was pending when
    the page was unmounted fires once it is due, asks for a token and
    creates a widget, which is then held in [zegoRef]; the container being
    gone, [joinRoom] is not called and no callback is registered. *)
Theorem retry_timer_outlives_the_page
    (p : Props) (x : InitEnv) (i : nat) (t : Timer) (rc ms : Z) (s : State) :
  joins p x ->
  phase s = Mounted ->
  timers s !! i = Some t -> action t = RetryInit rc ->
  0 <= ms -> due t <= now s + ms ->
  exists s',
    run p [EUnmount; EAdvance ms; ETimer i x] s = Some s' /\
    phase s' = Unmounted /\
    (exists tk, zegoRef s' = Some (mkWidget (nextWid s) tk)) /\
    join_calls (log s') = join_calls (log s) /\
    callbacks s' = callbacks s /\
    length (tokens (log s')) = S (length (tokens (log s))).
Proof.
  intros Hj Hphase Hi Ha Hms Hdue.
  set (s1 := set_phase Unmounted (cleanupMedia s)).
  set (s2 := set_now (now s1 + ms) s1).
  set (s0 := cleanupMedia (set_timers (delete i (timers s2)) s2)).
  assert (phase s0 = Unmounted /\ nextWid s0 = nextWid s /\
          join_calls (log s0) = join_calls (log s) /\ callbacks s0 = callbacks s /\
          tokens (log s0) = tokens (log s)) as (Hp0 & Hn0 & Hj0 & Hc0 & Hk0).
  { unfold s0. rewrite cleanupMedia_phase, cleanupMedia_nextWid, cleanupMedia_join_calls,
      cleanupMedia_callbacks, cleanupMedia_tokens. cbn.
    by rewrite cleanupMedia_nextWid, cleanupMedia_join_calls,
      cleanupMedia_callbacks, cleanupMedia_tokens. }
  exists (call_initializeMeeting p rc x s0). split.
  - cbn [run]. rewrite step_dispatch by auto. unfold dispatch at 1, is_mounted.
    rewrite Hphase. cbn [mbind option_bind]. fold s1.
    rewrite step_dispatch by (by right). unfold dispatch at 1.
    apply Z.leb_le in Hms. rewrite Hms. cbn [mbind option_bind]. fold s2.
    rewrite step_dispatch by (by right). unfold dispatch.
    assert (timers s2 = timers s) as Ht2 by (cbn; apply cleanupMedia_timers).
    assert (now s2 = now s + ms) as Hn2 by (cbn; by rewrite cleanupMedia_now).
    rewrite Ht2 at 1. rewrite Hi. cbn [mbind option_bind]. rewrite Hn2.
    apply Z.leb_le in Hdue. rewrite Hdue. unfold fire. by rewrite Ha.
  - destruct (initializeMeeting_unmounted p rc x s0 Hj Hp0) as (Hz & Hc & Hjc & Hk & Hp).
    rewrite Hn0 in Hz. by rewrite Hc, Hjc, Hk, Hc0, Hj0, Hk0.
Qed.

Lemma retry_timer_outlives_the_page_witness :
  exists s s',
    run sample_props [EMount sdk_ok; ENetworkStatusError 0 sdk_ok] (initial no_media) = Some s /\
    run sample_props [EUnmount; EAdvance 5000; ETimer 0 sdk_ok] s = Some s' /\
    phase s' = Unmounted /\ (wid <$> zegoRef s') = Some 2%nat.
Proof.
  destruct (run sample_props [EMount sdk_ok; ENetworkStatusError 0 sdk_ok] (initial no_media))
    as [s|] eqn:Hrun; [|vm_compute in Hrun; discriminate Hrun].
  assert (phase s = Mounted /\ timers s !! 0%nat = Some (mkTimer 5000 (RetryInit 0)) /\
          now s = 0 /\ nextWid s = 2%nat) as (Hp & Ht & Hn & Hw).
  { vm_compute in Hrun. injection Hrun as <-. by repeat split. }
  assert (joins sample_props sdk_ok) as Hj.
  { repeat split. by eexists. }
  destruct (retry_timer_outlives_the_page sample_props sdk_ok 0 _ 0 5000 s Hj Hp Ht eq_refl)
    as (s' & Hrun' & Hp' & (tk & Hz) & _); [done | rewrite Hn; done |].
  exists s, s'. repeat split; try done. by rewrite Hz, Hw.
Defined.

(** X11. Pressing Retry on a mounted page, with credentials and an SDK
    that let [joinRoom] return: the banner goes away, the widget held is
    replaced by a new one whose callbacks carry the retry count on screen,
    and neither the retry counter nor the pending timers are touched (a
    retry by hand does not reset the count and cancels no automatic
    retry). *)
Theorem retry_button_rejoins (p : Props) (x : InitEnv) (s : State) :
  joins p x ->
  phase s = Mounted ->
  truthy (connectionError s) = true ->
  exists s',
    step p (EClickRetry x) s = Some s' /\
    render p s' = MeetingView None /\
    (exists tk, zegoRef s' = Some (mkWidget (nextWid s) tk)) /\
    find_config (nextWid s) (callbacks s')
    = Some (mkJoinConfig (personal_link p) (retryCount s)) /\
    retryCount s' = retryCount s /\ timers s' = timers s /\
    destroyed (log s')
    = match zegoRef s with
      | Some held => wid held :: destroyed (log s)
      | None => destroyed (log s)
      end.
Proof.
  intros Hj Hphase Herror. pose proof Hj as (Hroom & _).
  rewrite step_dispatch by auto. unfold dispatch, is_mounted, render.
  rewrite Hphase, Hroom, Herror. cbn [negb]. eexists. split; [reflexivity|].
  change (onClickRetry p (retryCount s) x s)
    with (retry_callback p (retryCount s) x (setConnectionError JNull s)).
  destruct (retry_callback_log p (retryCount s) x (setConnectionError JNull s)) as (_ & ->).
  destruct (retry_callback_joins_frame p (retryCount s) x (setConnectionError JNull s))
    as (-> & ->).
  unfold retry_callback.
  set (s0 := cleanupMedia (setConnectionError JNull s)).
  assert (phase s0 = Mounted /\ nextWid s0 = nextWid s /\ connectionError s0 = JNull)
    as (Hp0 & Hn0 & He0).
  { unfold s0. by rewrite cleanupMedia_phase, cleanupMedia_nextWid,
      cleanupMedia_connectionError. }
  destruct (initializeMeeting_joined p (retryCount s) x s0 Hj Hp0) as (He & Hz & Hc).
  rewrite Hn0 in Hz, Hc. rewrite He, He0, Hc, find_config_head.
  by repeat split.
Qed.

Lemma retry_button_rejoins_witness :
  exists s s',
    run sample_props [EMount sdk_join_fails] (initial no_media) = Some s /\
    step sample_props (EClickRetry sdk_ok) s = Some s' /\
    render sample_props s' = MeetingView None /\ destroyed (log s') = [0%nat].
Proof.
  destruct (run sample_props [EMount sdk_join_fails] (initial no_media))
    as [s|] eqn:Hrun; [|vm_compute in Hrun; discriminate Hrun].
  assert (phase s = Mounted /\ truthy (connectionError s) = true /\
          (wid <$> zegoRef s) = Some 0%nat /\ destroyed (log s) = []) as (Hp & He & Hz & Hd).
  { vm_compute in Hrun. injection Hrun as <-. by repeat split. }
  assert (joins sample_props sdk_ok) as Hj.
  { repeat split. by eexists. }
  destruct (retry_button_rejoins sample_props sdk_ok s Hj Hp He)
    as (s' & Hstep & Hview & _ & _ & _ & _ & Hdes).
  exists s, s'. repeat split; try done.
  rewrite Hdes, Hd. destruct (zegoRef s) as [held|]; [|done]. by injection Hz as ->.
Defined.



(** *** A lasting outage *)


(** *** The earlier revision *)

(** X16. In the earlier revision of the room page, [initializeMeeting]
    also completes normally whatever the SDK does, but it checks nothing:
    without a room identifier it returns without a message, and with one it
    asks for a token from the application identifier and the server secret
    as they are, NaN and missing included. *)
Theorem Legacy_initializeMeeting_checks_nothing (p : Props) (x : InitEnv) (s : State) :
  let r := Legacy.initializeMeeting p x s in
  r.1 = Normal tt /\
  (truthy (roomId p) = false -> r.2 = emit (InitEnter (holds_widget s)) s) /\
  (truthy (roomId p) = true ->
   exists t, tokens (log r.2) = t :: tokens (log s) /\
             tk_appID t = parseInt (ZEGO_APP_ID p) /\
             tk_serverSecret t = ZEGO_SERVER_SECRET p).
Proof.
  cbv [Legacy.initializeMeeting Legacy.initializeMeeting_try
       generateKitTokenForTest create joinRoom try_catch modify get throw
       mbind mret Act_bind Act_ret].
  unfold container_attached, is_mounted.
  destruct (truthy (roomId p)); cbn; [|by repeat split].
  destruct (sdk x) eqn:Hsdk; cbn;
    try (destruct (phase s); cbn; rewrite ?Hsdk; cbn);
    (split; [done|]); (split; [done|]); intros _; eexists; by repeat split.
Qed.

Lemma Legacy_initializeMeeting_checks_nothing_witness :
  exists t,
    tokens (log (Legacy.initializeMeeting no_app_id_props sdk_ok
                   (set_phase Mounted (initial no_media))).2) = [t] /\
    tk_appID t = None.
Proof.
  destruct (Legacy_initializeMeeting_checks_nothing no_app_id_props sdk_ok
              (set_phase Mounted (initial no_media))) as (_ & _ & Hroom).
  destruct (Hroom eq_refl) as (t & Ht & Happ & _).
  exists t. by split.
Defined.

End Coverage.

(** ** The home page, beyond the room controls *)

Module HomeCoverage.
Import Home HomeRun HomeFacts.

Lemma create_enabled_spec (s : State) :
  create_enabled s = true <->
  showRoomControls (fullName s) = true /\ isPending s = false.
Proof.
  unfold create_enabled, render, roomControls, isRoomIdValid.
  destruct (showRoomControls (fullName s)); simpl; [|by intuition].
  destruct (roomId s) as [|c r]; simpl; destruct (isPending s); by intuition.
Qed.

(** X13. The Connect button can be pressed exactly when the name is valid
    (so that the room controls are shown), the room-id input is not empty
    and no navigation is pending; the Create Room button exactly when the
    name is valid and no navigation is pending. *)
Theorem buttons_enabled_iff (s : State) :
  (is_Some (step ClickConnect s) <->
   showRoomControls (fullName s) = true /\ roomId s <> [] /\ isPending s = false) /\
  (forall uuid, is_Some (step (ClickCreateRoom uuid) s) <->
   showRoomControls (fullName s) = true /\ isPending s = false).
Proof.
  split; [|intros uuid]; unfold step.
  - rewrite <- connect_enabled_spec. destruct (connect_enabled s).
    + split; [done | intros _; by eexists].
    + split; [by intros [? ?] | done].
  - rewrite <- create_enabled_spec. destruct (create_enabled s).
    + split; [done | intros _; by eexists].
    + split; [by intros [? ?] | done].
Qed.

Lemma buttons_enabled_iff_witness :
  is_Some (step ClickConnect (setRoomId (lit "abc") (initial (JString (lit "Ann"))))) /\
  step ClickConnect (initial (JString (lit "Ann"))) = None.
Proof.
  split.
  - apply (proj1 (buttons_enabled_iff (setRoomId (lit "abc") (initial (JString (lit "Ann")))))).
    by repeat split.
  - destruct (step ClickConnect (initial (JString (lit "Ann")))) as [s'|] eqn:Hstep; [|done].
    assert (is_Some (step ClickConnect (initial (JString (lit "Ann"))))) as Hsome
      by (rewrite Hstep; by eexists).
    apply (proj1 (buttons_enabled_iff (initial (JString (lit "Ann"))))) in Hsome.
    by destruct Hsome as (_ & Hne & _).
Defined.

(** X14. A press of Connect or of Create Room pushes exactly one route and
    leaves both buttons disabled: until the transition is done, neither
    can be pressed again. *)
Theorem one_navigation_at_a_time (e : Event) (s s' : State) :
  e = ClickConnect \/ (exists uuid, e = ClickCreateRoom uuid) ->
  step e s = Some s' ->
  length (pushed s') = S (length (pushed s)) /\
  step ClickConnect s' = None /\
  (forall uuid, step (ClickCreateRoom uuid) s' = None) /\
  is_Some (step TransitionDone s').
Proof.
  intros He Hstep.
  assert (isPending s' = true /\ length (pushed s') = S (length (pushed s))) as (Hpending & Hlen).
  { destruct He as [-> | (uuid & ->)]; unfold step in Hstep.
    - destruct (connect_enabled s) eqn:Hen; [|done]. injection Hstep as <-.
      apply connect_enabled_spec in Hen as (_ & Hne & _).
      unfold handleConnect. destruct (roomId s) as [|c r]; [done|].
      cbn. by rewrite length_app, Nat.add_1_r.
    - destruct (create_enabled s); [|done]. injection Hstep as <-.
      cbn. by rewrite length_app, Nat.add_1_r. }
  split; [done|]. split; [|split].
  - unfold step. destruct (connect_enabled s') eqn:Hen; [|done].
    apply connect_enabled_spec in Hen as (_ & _ & Hp). congruence.
  - intros uuid. unfold step. destruct (create_enabled s') eqn:Hen; [|done].
    apply create_enabled_spec in Hen as (_ & Hp). congruence.
  - by eexists.
Qed.

Lemma one_navigation_at_a_time_witness :
  let s := setRoomId (lit "abc") (initial (JString (lit "Ann"))) in
  exists s', step ClickConnect s = Some s' /\
             pushed s' = [lit "/room/abc"] /\ step ClickConnect s' = None.
Proof.
  intros s. destruct (step ClickConnect s) as [s'|] eqn:Hstep; [|vm_compute in Hstep; done].
  exists s'. split; [reflexivity|].
  destruct (one_navigation_at_a_time ClickConnect s s' (or_introl eq_refl) Hstep)
    as (_ & Hagain & _).
  split; [|exact Hagain]. vm_compute in Hstep. by injection Hstep as <-.
Defined.

Lemma routes_step e s s' :
  step e s = Some s' ->
  (Forall is_room_route (pushed s) -> Forall is_room_route (pushed s')) /\
  (length (pushed s') + pending_slot s
   <= length (pushed s) + pending_slot s'
      + match e with TransitionDone => 1 | _ => 0 end)%nat.
Proof.
  unfold step, pending_slot. intros Hstep. destruct e.
  - injection Hstep as <-. cbn. split; [done|lia].
  - injection Hstep as <-. cbn. split; [done|lia].
  - destruct (existsb is_RoomIdInput (render s)); [|done].
    injection Hstep as <-. cbn. split; [done|lia].
  - destruct (connect_enabled s) eqn:Hen; [|done]. injection Hstep as <-.
    apply connect_enabled_spec in Hen as (_ & Hne & Hp).
    unfold handleConnect. destruct (roomId s) as [|c r] eqn:Hr; [done|].
    cbn. rewrite Hp, length_app. split; [|simpl; lia].
    intros Hall. apply Forall_app. split; [done|].
    repeat constructor. by exists (c :: r).
  - destruct (create_enabled s) eqn:Hen; [|done]. injection Hstep as <-.
    apply create_enabled_spec in Hen as (_ & Hp).
    cbn. rewrite Hp, length_app. split; [|simpl; lia].
    intros Hall. apply Forall_app. split; [done|].
    repeat constructor. by exists uuid.
  - injection Hstep as <-. cbn. split; [done|]. destruct (isPending s); lia.
Qed.

Lemma routes_run events s s' :
  run events s = Some s' ->
  (Forall is_room_route (pushed s) -> Forall is_room_route (pushed s')) /\
  (length (pushed s') + pending_slot s
   <= length (pushed s) + pending_slot s' + transitions_done events)%nat.
Proof.
  revert s. induction events as [|e events IH]; intros s Hrun.
  - injection Hrun as <-. split; [done|]. unfold transitions_done. simpl. lia.
  - simpl in Hrun. destruct (step e s) as [s1|] eqn:Hstep; [|done].
    destruct (routes_step e s s1 Hstep) as (Hr1 & Hl1).
    destruct (IH s1 Hrun) as (Hr2 & Hl2).
    split; [auto|].
    assert (transitions_done (e :: events)
            = (match e with TransitionDone => 1 | _ => 0 end + transitions_done events)%nat)
      as -> by (unfold transitions_done; by destruct e).
    lia.
Qed.

(** X15. Whatever is typed and pressed on the home page, every route it
    pushes is "/room/" followed by an identifier, and the number of routes
    pushed is at most one more than the number of transitions that
    finished. *)
Theorem home_navigates_to_rooms_only
    (name : jsval) (events : list Event) (s : State) :
  run events (initial name) = Some s ->
  Forall is_room_route (pushed s) /\
  (length (pushed s) <= S (transitions_done events))%nat.
Proof.
  intros Hrun. destruct (routes_run events (initial name) s Hrun) as (Hr & Hl).
  split; [by apply Hr; constructor|].
  unfold pending_slot in Hl. simpl in Hl. destruct (isPending s); lia.
Qed.

Lemma home_navigates_to_rooms_only_witness :
  exists s,
    run [Mount; ChangeName (lit "Ann"); ClickCreateRoom (lit "u-1"); TransitionDone;
         ChangeRoomId (lit "abc"); ClickConnect] (initial JUndefined) = Some s /\
    Forall is_room_route (pushed s) /\ pushed s = [lit "/room/u-1"; lit "/room/abc"].
Proof.
  destruct (run [Mount; ChangeName (lit "Ann"); ClickCreateRoom (lit "u-1"); TransitionDone;
                 ChangeRoomId (lit "abc"); ClickConnect] (initial JUndefined))
    as [s|] eqn:Hrun; [|vm_compute in Hrun; discriminate Hrun].
  exists s. split; [reflexivity|]. split.
  - exact (proj1 (home_navigates_to_rooms_only _ _ s Hrun)).
  - vm_compute in Hrun. by injection Hrun as <-.
Defined.

End HomeCoverage.
